(** * learnifyapi: the HTTP client binding (src/learnifyapi/client.py)

    A shallow embedding of [LearnifyAPI] and of the record schemas of
    src/learnifyapi/types/api, with the properties of the request and
    response validation layer.

    Python objects are modelled by small inductive types, dictionaries
    whose order is observable (query parameters, JSON bodies) by
    association lists in insertion order, header dictionaries by finite
    maps, raised exceptions by an error monad, and the objects that the
    client and its caller share (the client itself, the log of dispatched
    HTTP calls, the caller's header dictionaries) by an explicit world. *)

From Stdlib Require Import ZArith Ascii Lia.
From stdpp Require Import base strings gmap list pretty.

Set Warnings "-register-all".

Open Scope string_scope.
Open Scope Z_scope.

(** ** Python values *)

Module Py.

(** The values that reach the client as query parameters, header values
    and body fields.  A float and an object of any other class are
    identified by the text that [str] prints for them. *)
Inductive pyval : Type :=
| PyNone
| PyBool (b : bool)
| PyInt (n : Z)
| PyFloat (repr : string)
| PyStr (s : string)
| PyObj (repr : string).

#[global] Instance pyval_eq_dec : EqDecision pyval.
Proof. solve_decision. Defined.

(** The classes named in the client's [isinstance] tests. *)
Inductive pyclass : Type := cls_str | cls_float | cls_int | cls_bool.

(** [isinstance(v, c)]: in Python [bool] is a subclass of [int], so a
    boolean is an instance of both. *)
Definition isinstance (v : pyval) (c : pyclass) : bool :=
  match v, c with
  | PyStr _, cls_str => true
  | PyFloat _, cls_float => true
  | PyInt _, cls_int => true
  | PyBool _, cls_int => true
  | PyBool _, cls_bool => true
  | _, _ => false
  end.

(** [isinstance(v, (c1, ..., cn))]. *)
Definition isinstance_any (v : pyval) (cs : list pyclass) : bool :=
  existsb (isinstance v) cs.

Definition is_None (v : pyval) : bool :=
  match v with PyNone => true | _ => false end.

(** [str(v)], which is also what an f-string field [{v}] prints. *)
Definition str (v : pyval) : string :=
  match v with
  | PyNone => "None"
  | PyBool true => "True"
  | PyBool false => "False"
  | PyInt n => pretty n
  | PyFloat repr => repr
  | PyStr s => s
  | PyObj repr => repr
  end.

(** An insertion-ordered [dict] with string keys. *)
Definition dict : Type := list (string * pyval).

Fixpoint setitem (k : string) (v : pyval) (d : dict) : dict :=
  match d with
  | [] => [(k, v)]
  | (k', v') :: d' =>
      if String.eqb k' k then (k', v) :: d' else (k', v') :: setitem k v d'
  end.

(** [{k: f(v) for k, v in items}]. *)
Definition dict_comprehension (f : pyval -> pyval) (items : dict) : dict :=
  fold_left (fun acc kv => setitem (fst kv) (f (snd kv)) acc) items [].

Definition keys (d : dict) : list string := map fst d.

Fixpoint get (k : string) (d : dict) : option pyval :=
  match d with
  | [] => None
  | (k', v) :: d' => if String.eqb k' k then Some v else get k d'
  end.

(** Truth value of a dictionary: non-empty. *)
Definition truthy (d : dict) : bool :=
  match d with [] => false | _ => true end.

End Py.
Export Py.

(** ** Parsed JSON *)

(** What [json.loads] builds: [None], [bool], [int], [float], [str],
    [list] and [dict] (string keys, insertion order). *)
Inductive json : Type :=
| JNull
| JBool (b : bool)
| JInt (n : Z)
| JFloat (repr : string)
| JStr (s : string)
| JArr (items : list json)
| JObj (fields : list (string * json)).

(** [d.get(k)] on a parsed object. *)
Fixpoint json_get (k : string) (fields : list (string * json)) : option json :=
  match fields with
  | [] => None
  | (k', v) :: rest => if String.eqb k' k then Some v else json_get k rest
  end.

(** ** Exceptions *)

Inductive exn : Type :=
| ValueError (msg : string)
| RuntimeError (msg : string)
| APIError (status_code : Z) (message : json)
| UnboundLocalError (name : string)
| JSONDecodeError
| ContentTypeError
| ValidationError
| AttributeError (name : string).

Inductive except (A : Type) : Type :=
| Returns (a : A)
| Raises (e : exn).
Arguments Returns {A} a.
Arguments Raises {A} e.

Definition except_bind {A B} (m : except A) (k : A -> except B) : except B :=
  match m with
  | Returns a => k a
  | Raises e => Raises e
  end.

(** ** Query parameters *)

Definition boolean (b : bool) : string := if b then "true" else "false".

(** The value expression of the inner comprehension of [init_params]. *)
Definition init_params_value (Y : pyval) : pyval :=
  if isinstance_any Y [cls_str; cls_float; cls_int] then Y
  else if isinstance Y cls_bool then
    match Y with PyBool b => PyStr (boolean b) | _ => Y end
  else if is_None Y then PyStr "null"
  else PyStr (Py.str Y).

Definition init_params (url : string) (params : dict) : string :=
  if Py.truthy params then
    url +:+ "?" +:+
    String.concat "&"
      (map (fun XY => fst XY +:+ "=" +:+ Py.str (snd XY))
           (dict_comprehension init_params_value params))
  else url.


(** ** Dates *)

(** A [datetime.date]: the constructor of the class accepts exactly the
    triples that satisfy [date_valid]. *)
Record date : Type := { year : Z; month : Z; day : Z }.

Definition is_leap (y : Z) : bool :=
  ((y mod 4 =? 0) && negb (y mod 100 =? 0)) || (y mod 400 =? 0).

Definition days_in_month (y m : Z) : Z :=
  if m =? 2 then (if is_leap y then 29 else 28)
  else if (m =? 4) || (m =? 6) || (m =? 9) || (m =? 11) then 30
  else 31.

Definition date_valid (d : date) : Prop :=
  1 <= year d <= 9999 /\ 1 <= month d <= 12 /\
  1 <= day d <= days_in_month (year d) (month d).

(** [s.zfill(width)] on the decimal text of a non-negative number. *)
Fixpoint zeros (n : nat) : string :=
  match n with O => "" | S n' => String "0"%char (zeros n') end.

Definition zfill (width : nat) (s : string) : string :=
  zeros (width - String.length s)%nat +:+ s.

(** [date.isoformat()], the C format [%04d-%02d-%02d]. *)
Definition isoformat (d : date) : string :=
  zfill 4 (pretty (year d)) +:+ "-" +:+
  zfill 2 (pretty (month d)) +:+ "-" +:+
  zfill 2 (pretty (day d)).

(** What may be passed where a [datetime.date] is expected: a plain date,
    or an instance of the subclass [datetime.datetime], which adds the time
    of day, the microsecond and, when it is aware, the UTC offset (a
    [timedelta], here in microseconds, negative west of Greenwich). *)
Inductive date_instance : Type :=
| plain_date (d : date)
| full_datetime (d : date) (hour minute second microsecond : Z)
    (utcoffset : option Z).

(** The fraction that [datetime.isoformat()] prints after the seconds:
    nothing for a zero microsecond, else a dot and six digits. *)
Definition format_fraction (microsecond : Z) : string :=
  if microsecond =? 0 then EmptyString
  else "." +:+ zfill 6 (pretty microsecond).

(** The UTC offset as [datetime.isoformat()] prints it: nothing for a
    naive datetime; else the sign, hours and minutes, then the seconds
    (and their fraction) when the offset is not a whole number of
    minutes. *)
Definition format_offset (utcoffset : option Z) : string :=
  match utcoffset with
  | None => EmptyString
  | Some off =>
      let sign := if off <? 0 then "-" else "+" in
      let off := Z.abs off in
      let hh := off / 3600000000 in
      let mm := (off mod 3600000000) / 60000000 in
      let ss := (off mod 3600000000) mod 60000000 in
      sign +:+ zfill 2 (pretty hh) +:+ ":" +:+ zfill 2 (pretty mm) +:+
      (if ss =? 0 then EmptyString
       else ":" +:+ zfill 2 (pretty (ss / 1000000)) +:+
            format_fraction (ss mod 1000000))
  end.

(** [x.isoformat()] for [x] a date or a datetime: the method of the class
    of [x] runs. *)
Definition instance_isoformat (x : date_instance) : string :=
  match x with
  | plain_date d => isoformat d
  | full_datetime d hour minute second microsecond utcoffset =>
      isoformat d +:+ "T" +:+
      zfill 2 (pretty hour) +:+ ":" +:+ zfill 2 (pretty minute) +:+ ":" +:+
      zfill 2 (pretty second) +:+ format_fraction microsecond +:+
      format_offset utcoffset
  end.

(** ** HTTP calls and responses *)

(** The keyword arguments that the resource operations hand to [request]
    beside its own parameters. *)
Record kwargs : Type := { kw_params : option dict; kw_json : option dict }.

(** One call of [session.request]. *)
Record HttpCall : Type := {
  call_method : string;
  call_url : string;
  call_headers : gmap string pyval;
  call_json : option dict }.

(** An [aiohttp.ClientResponse], by what its members give: [status], the
    outcome of [await response.json()] (a parsed value, or the exception
    it raises) and [await response.text()]. *)
Record ClientResponse : Type := {
  status : Z;
  json_result : except json;
  text : string }.

(** The values that [request] hands back. *)
Inductive pyobj (A : Type) : Type :=
| RNone
| RResponse (response : ClientResponse)
| RJson (value : json)
| RText (raw_text : string)
| RModel (record : A)
| RList (items : list (pyobj A)).
Arguments RNone {A}.
Arguments RResponse {A} response.
Arguments RJson {A} value.
Arguments RText {A} raw_text.
Arguments RModel {A} record.
Arguments RList {A} items.

(** ** The client and the world it runs in *)

Inductive ClientSession : Type := aiohttp_ClientSession.

Record LearnifyAPI : Type := {
  token : string;
  base_url : string;
  _default_headers : gmap string pyval;
  session : option ClientSession }.

(** [s.rstrip(c)] for a one-character [c]. *)
Fixpoint rstrip (c : ascii) (s : string) : string :=
  match s with
  | EmptyString => EmptyString
  | String a s' =>
      match rstrip c s' with
      | EmptyString => if Ascii.eqb a c then EmptyString else String a EmptyString
      | r => String a r
      end
  end.

Definition __init__ (token base_url : string) : LearnifyAPI :=
  {| token := token;
     base_url := rstrip "/"%char base_url;
     _default_headers := {[ "Authorization" := PyStr ("Bearer " +:+ token) ]};
     session := None |}.

Definition default_base_url : string := "https://learnify.mag329.tech/api/v1".

(** The objects shared between the client and its caller: the client
    itself, the calls dispatched through its session so far, and the
    header dictionaries that the caller passes by reference.  A reference
    that is not stored denotes an empty dictionary. *)
Record World : Type := {
  client : LearnifyAPI;
  sent : list HttpCall;
  heap : gmap nat (gmap string pyval) }.

(** Computations that read and write the world and may raise. *)
Definition M (A : Type) : Type := World -> except A * World.

Definition ret {A} (a : A) : M A := fun w => (Returns a, w).

Definition raise {A} (e : exn) : M A := fun w => (Raises e, w).

Definition bind {A B} (m : M A) (k : A -> M B) : M B :=
  fun w =>
    match m w with
    | (Returns a, w') => k a w'
    | (Raises e, w') => (Raises e, w')
    end.

Definition lift {A} (r : except A) : M A := fun w => (r, w).

Declare Scope py_scope.
Delimit Scope py_scope with py.
Notation "'let!' x ':=' m 'in' k" := (bind m (fun x => k))
  (at level 10, x name, m at level 100, k at level 200) : py_scope.
Open Scope py_scope.

Definition self : M LearnifyAPI := fun w => (Returns (client w), w).

Definition deref (l : nat) : M (gmap string pyval) :=
  fun w => (Returns (heap w !!! l), w).

Definition store (l : nat) (d : gmap string pyval) : M unit :=
  fun w => (Returns tt,
            {| client := client w; sent := sent w; heap := <[l := d]> (heap w) |}).

(** ** Header construction *)

(** One turn of the loop of [headers] over the copy of [custom_headers]:
    the third argument is the dictionary being edited. *)
Definition headers_clean_step (key : string) (value : pyval)
    (custom_headers : gmap string pyval) : gmap string pyval :=
  if is_None value then delete key custom_headers
  else if negb (isinstance value cls_str) then
    <[key := PyStr (Py.str value)]> custom_headers
  else custom_headers.

(** The whole loop: it runs over a copy and edits the original. *)
Definition headers_clean (custom_headers : gmap string pyval) : gmap string pyval :=
  map_fold headers_clean_step custom_headers custom_headers.

Definition HEADERS : gmap string pyval :=
  <["Content-Type" := PyStr "application/json"]>
  (<["Accept" := PyStr "application/json, text/plain, */*"]>
  (<["Accept-Language" := PyStr "ru-RU,ru;q=0.8,en-US;q=0.5,en;q=0.3"]>
  (<["Accept-Encoding" := PyStr "gzip, deflate, br"]>
  (<["Connection" := PyStr "keep-alive"]> ∅)))).

Definition str_truthy (s : string) : bool :=
  match s with EmptyString => false | _ => true end.

Definition map_truthy (d : gmap string pyval) : bool :=
  negb (bool_decide (d = ∅)).

Definition headers (require_token : bool) (custom_headers : option nat)
    : M (gmap string pyval) :=
  let! _ :=
    match custom_headers with
    | Some l =>
        let! d := deref l in
        if map_truthy d then store l (headers_clean d) else ret tt
    | None => ret tt
    end in
  let! this := self in
  if negb (str_truthy (token this)) && require_token then
    raise (ValueError "Token is required!")
  else
    let HEADERS' :=
      if require_token
      then <["Authorization" := PyStr ("Bearer " +:+ token this)]> HEADERS
      else HEADERS in
    let! custom :=
      match custom_headers with
      | Some l => deref l
      | None => ret ∅
      end in
    ret (custom ∪ HEADERS').

(** ** Record schemas *)

(** The base class [Type] of the record schemas: a schema decodes one
    parsed JSON value into a record, or rejects it. *)
Class Type_ (A : Type) : Type := { model_validate : json -> option A }.

(** src/learnifyapi/types/api/gdz.py *)
Module gdz.

Record Book : Type := {
  id : Z;
  user_id : Z;
  subject_id : option Z;
  subject_name : option string;
  url : string;
  search_by : string }.

End gdz.

(** src/learnifyapi/types/api/user.py; the timestamp type [DT] is
    declared outside the files at hand and stays a parameter. *)
Module user.

Record User (DT : Type) : Type := {
  id : Z;
  user_id : Z;
  payed_at : option DT;
  expires_at : option DT;
  is_active : bool;
  plan_type : string }.

End user.

(** ** Requests *)

Definition session_not_initialized : string :=
  "Session not initialized. Use `async with AsyncAPIClient(...)` or call `await client.__aenter__()`.".

Section Client.

(** The remote end: the response to each dispatched call. *)
Variable server : HttpCall -> ClientResponse.

(** The JSON reader behind [model_validate_json]. *)
Variable json_loads : string -> option json.

(** Python's [str] on a parsed JSON value. *)
Variable str_of_json : json -> string.

(** The schemas handed to [request] as [model=]. *)
Context {DT : Type} {User : Type_ (user.User DT)} {Book : Type_ gdz.Book}.

Definition __aenter__ : M unit :=
  fun w =>
    (Returns tt,
     {| client := {| token := token (client w);
                     base_url := base_url (client w);
                     _default_headers := _default_headers (client w);
                     session := Some aiohttp_ClientSession |};
        sent := sent w; heap := heap w |}).


(** [self.session.request(...)]: the call is logged and answered. *)
Definition session_request (call : HttpCall) : M ClientResponse :=
  fun w =>
    (Returns (server call),
     {| client := client w; sent := sent w ++ [call]; heap := heap w |}).

(** Reading a local variable: one that no assignment has reached yet
    raises [UnboundLocalError]. *)
Definition read_local (name : string) (binding : option json) : except json :=
  match binding with
  | Some v => Returns v
  | None => Raises (UnboundLocalError name)
  end.

(** [json_response.get("description", str(json_response))] on a parsed
    object. *)
Definition get_description (fields : list (string * json)) : json :=
  default (JStr (str_of_json (JObj fields))) (json_get "description" fields).

(** [APIError(status_code=response.status, message=json_response.get(...))]:
    only a [dict] has the method [get]. *)
Definition make_APIError (response : ClientResponse) (json_response : json)
    : except exn :=
  match json_response with
  | JObj fields => Returns (APIError (status response) (get_description fields))
  | _ => Raises (AttributeError "get")
  end.

(** The exceptions named by the [except] clause of [_check_response]. *)
Definition caught (e : exn) : bool :=
  match e with
  | JSONDecodeError | ContentTypeError => true
  | _ => false
  end.

(** The [try] block of [_check_response]: the binding of the local
    [json_response] when the block is left, and how it is left. *)
Definition check_response_try (response : ClientResponse)
    : option json * except unit :=
  match json_result response with
  | Raises error => (None, Raises error)
  | Returns json_response =>
      (Some json_response,
       match json_response with
       | JObj _ =>
           except_bind (make_APIError response json_response) (fun error =>
             Raises error)
       | _ => Returns tt
       end)
  end.

Definition _check_response (response : ClientResponse) : except unit :=
  if 400 <=? status response then
    let '(binding, outcome) := check_response_try response in
    match outcome with
    | Returns _ => Returns tt
    | Raises error =>
        if caught error then
          except_bind (read_local "json_response" binding) (fun json_response =>
            except_bind (make_APIError response json_response) (fun error' =>
              Raises error'))
        else Raises error
    end
  else Returns tt.

(** [model.model_validate_json(raw_text)]. *)
Definition model_validate_json {A} (model : Type_ A) (raw_text : string)
    : except A :=
  match json_loads raw_text with
  | Some value =>
      match @model_validate A model value with
      | Some record => Returns record
      | None => Raises ValidationError
      end
  | None => Raises ValidationError
  end.

(** One element of [list[model]]; with [model] left at [None] the
    element type is [None] itself. *)
Definition validate_item {A} (model : option (Type_ A)) (value : json)
    : option (pyobj A) :=
  match model with
  | Some m => RModel <$> @model_validate A m value
  | None => match value with JNull => Some RNone | _ => None end
  end.

(** The root type [list[model] | None] of [ListModels]. *)
Definition ListModels_validate {A} (model : option (Type_ A)) (value : json)
    : option (pyobj A) :=
  match value with
  | JNull => Some RNone
  | JArr items => RList <$> mapM (validate_item model) items
  | _ => None
  end.

Definition parse_list_models {A} (model : option (Type_ A)) (response : string)
    : except (pyobj A) :=
  match json_loads response with
  | Some value =>
      match ListModels_validate model value with
      | Some root => Returns root
      | None => Raises ValidationError
      end
  | None => Raises ValidationError
  end.

(** The body of the [async with] block of [request]: what is done with
    the response once the session has answered. *)
Definition handle_response {A} (model : option (Type_ A))
    (is_list return_json return_raw_text return_raw_response : bool)
    (response : ClientResponse) : except (pyobj A) :=
  except_bind (_check_response response) (fun _ =>
    let raw_text := text response in
    if negb (str_truthy raw_text) then Returns RNone
    else if return_raw_response then Returns (RResponse response)
    else if return_json then
      except_bind (json_result response) (fun value => Returns (RJson value))
    else if return_raw_text then Returns (RText raw_text)
    else if is_list then parse_list_models model raw_text
    else
      match model with
      | Some m =>
          except_bind (model_validate_json m raw_text) (fun record =>
            Returns (RModel record))
      | None => Returns (RText raw_text)
      end).

Definition request {A} (method path : string) (custom_headers : option nat)
    (model : option (Type_ A))
    (is_list return_json return_raw_text required_token
       return_raw_response : bool)
    (kw : kwargs) : M (pyobj A) :=
  let! this := self in
  match session this with
  | None =>
      raise (RuntimeError session_not_initialized)
  | Some _ =>
      let params := default [] (kw_params kw) in
      let url := init_params (base_url this +:+ path) params in
      let! hdrs := headers required_token custom_headers in
      let! response :=
        session_request {| call_method := method; call_url := url;
                           call_headers := hdrs; call_json := kw_json kw |} in
      lift (handle_response model is_list return_json return_raw_text
              return_raw_response response)
  end.

(** ** Resource operations *)

Definition set_if {V} (key : string) (f : V -> pyval) (arg : option V)
    (body : dict) : dict :=
  match arg with
  | Some v => setitem key (f v) body
  | None => body
  end.

Definition create_user_body (user_id : Z) (expires_at : option date_instance)
    (plan_type : option string) : dict :=
  let body := [("user_id", PyInt user_id)] in
  let body :=
    set_if "expires_at" (fun d => PyStr (instance_isoformat d)) expires_at body in
  let body := set_if "plan_type" PyStr plan_type body in
  body.

Definition create_user (user_id : Z) (expires_at : option date_instance)
    (plan_type : option string) : M (pyobj (user.User DT)) :=
  let body := create_user_body user_id expires_at plan_type in
  request "POST" "/premium/users" None (Some User)
    false false false true false
    {| kw_params := None; kw_json := Some body |}.

Definition update_user_body (expires_at : option date_instance)
    (plan_type : option string) (is_active : option bool) : dict :=
  let body := [] in
  let body :=
    set_if "expires_at" (fun d => PyStr (instance_isoformat d)) expires_at body in
  let body := set_if "plan_type" PyStr plan_type body in
  let body := set_if "is_active" PyBool is_active body in
  body.

Definition update_user (user_id : Z) (expires_at : option date_instance)
    (plan_type : option string) (is_active : option bool)
    : M (pyobj (user.User DT)) :=
  let body := update_user_body expires_at plan_type is_active in
  if negb (Py.truthy body) then
    raise (ValueError "No fields provided for update")
  else
    request "PUT" ("/premium/users/" +:+ pretty user_id) None (Some User)
      false false false true false
      {| kw_params := None; kw_json := Some body |}.

Definition update_book_body (url : option string) (subject_id : option Z)
    (subject_name search_by : option string) : dict :=
  let body := [] in
  let body := set_if "url" PyStr url body in
  let body := set_if "subject_id" PyInt subject_id body in
  let body := set_if "subject_name" PyStr subject_name body in
  let body := set_if "search_by" PyStr search_by body in
  body.

Definition update_book (user_id book_id : Z) (url : option string)
    (subject_id : option Z) (subject_name search_by : option string)
    : M (pyobj gdz.Book) :=
  let body := update_book_body url subject_id subject_name search_by in
  if negb (Py.truthy body) then
    raise (ValueError "No fields provided for update")
  else
    request "PUT" ("/premium/gdz/books/" +:+ pretty book_id) None (Some Book)
      false false false true false
      {| kw_params := Some [("user_id", PyInt user_id)];
         kw_json := Some body |}.

End Client.

(** ** Reference definitions for the statements *)

(** What the loop of [headers] is meant to do to one custom value: drop
    [None], keep a string, print anything else. *)
Definition clean_value (v : pyval) : option pyval :=
  match v with
  | PyNone => None
  | PyStr s => Some (PyStr s)
  | other => Some (PyStr (Py.str other))
  end.

(** How [init_params] prints a value. *)
Definition rendered (v : pyval) : string :=
  match v with
  | PyNone => "null"
  | other => Py.str other
  end.

Definition base_header_names : list string :=
  ["Content-Type"; "Accept"; "Accept-Language"; "Accept-Encoding"; "Connection"].

(** A custom header overrides a key when it carries a value other than
    [None] for it. *)
Definition overrides (custom : gmap string pyval) (k : string) : Prop :=
  ∃ v, custom !! k = Some v ∧ v ≠ PyNone.

(** The decode modes of a successful response as one enumeration. *)
Inductive decode_mode (A : Type) : Type :=
| RawResponse
| ParsedJson
| RawText
| ListOfSchema (model : option (Type_ A))
| SingleSchema (model : Type_ A)
| RawTextNoSchema.
Arguments RawResponse {A}.
Arguments ParsedJson {A}.
Arguments RawText {A}.
Arguments ListOfSchema {A} model.
Arguments SingleSchema {A} model.
Arguments RawTextNoSchema {A}.

(** The mode that wins, in the priority order of the specification. *)
Definition select_mode {A} (return_raw_response return_json return_raw_text
    is_list : bool) (model : option (Type_ A)) : decode_mode A :=
  if return_raw_response then RawResponse
  else if return_json then ParsedJson
  else if return_raw_text then RawText
  else if is_list then ListOfSchema model
  else match model with
       | Some m => SingleSchema m
       | None => RawTextNoSchema
       end.

(** What each mode makes of a response. *)
Definition decode_as {A} (json_loads : string -> option json)
    (mode : decode_mode A) (response : ClientResponse) : except (pyobj A) :=
  match mode with
  | RawResponse => Returns (RResponse response)
  | ParsedJson =>
      match json_result response with
      | Returns value => Returns (RJson value)
      | Raises e => Raises e
      end
  | RawText | RawTextNoSchema => Returns (RText (text response))
  | ListOfSchema model => parse_list_models json_loads model (text response)
  | SingleSchema m =>
      match model_validate_json json_loads m (text response) with
      | Returns record => Returns (RModel record)
      | Raises e => Raises e
      end
  end.

(** The decimal digit of [n] at position [i] (units are position 0). *)
Definition digit_at (n : Z) (i : nat) : ascii :=
  ascii_of_nat (48 + Z.to_nat ((n / 10 ^ Z.of_nat i) mod 10)).

(** [n] written with exactly [width] decimal digits, leading zeros
    included. *)
Fixpoint fixed_width (width : nat) (n : Z) : string :=
  match width with
  | O => ""
  | S i => String (digit_at n i) (fixed_width i n)
  end.

Definition is_digit (c : ascii) : bool :=
  (48 <=? nat_of_ascii c)%nat && (nat_of_ascii c <=? 57)%nat.

(** The shape [YYYY-MM-DD]: ten characters, digits around two dashes. *)
Definition date_only_shape (s : string) : bool :=
  match s with
  | String y1 (String y2 (String y3 (String y4 (String sep1
      (String m1 (String m2 (String sep2
        (String d1 (String d2 EmptyString))))))))) =>
      forallb is_digit [y1; y2; y3; y4; m1; m2; d1; d2]
      && Ascii.eqb sep1 "-" && Ascii.eqb sep2 "-"
  | _ => false
  end.

(** [zfill] of the printed number is its fixed-width form. *)
Definition zfill_agrees (width : nat) (n : Z) : bool :=
  String.eqb (zfill width (pretty n)) (fixed_width width n).

(** ** Instances for the examples *)

(** Modelled from the spec: the base class [Type] of learnifyapi/types/model.py
    is not among the sources; by section 3 of the specification a record is
    built from a JSON object and construction fails when a required field is
    missing or mistyped.  The fields and their types are those that
    src/learnifyapi/types/api/gdz.py declares for [Book]; none has a default,
    so each key must be present, and an [Optional] field also takes [null]. *)
Module BookSchema.

Definition as_int (v : json) : option Z :=
  match v with JInt n => Some n | _ => None end.

Definition as_str (v : json) : option string :=
  match v with JStr s => Some s | _ => None end.

Definition optional {T} (f : json -> option T) (v : json) : option (option T) :=
  match v with JNull => Some None | _ => Some <$> f v end.

Definition field {T} (f : json -> option T) (key : string)
    (fields : list (string * json)) : option T :=
  json_get key fields ≫= f.

Definition validate (v : json) : option gdz.Book :=
  match v with
  | JObj fields =>
      id ← field as_int "id" fields;
      user_id ← field as_int "user_id" fields;
      subject_id ← field (optional as_int) "subject_id" fields;
      subject_name ← field (optional as_str) "subject_name" fields;
      url ← field as_str "url" fields;
      search_by ← field as_str "search_by" fields;
      Some {| gdz.id := id; gdz.user_id := user_id;
              gdz.subject_id := subject_id;
              gdz.subject_name := subject_name;
              gdz.url := url; gdz.search_by := search_by |}
  | _ => None
  end.

Definition Book : Type_ gdz.Book := {| model_validate := validate |}.

End BookSchema.

(** A schema that rejects everything, for the calls of the examples whose
    response is never decoded against [User]. *)
Definition no_User : Type_ (user.User unit) := {| model_validate := fun _ => None |}.

(** A reader for the fragment of JSON that the examples are written in:
    [null], [true], [false], integers, strings without escapes, arrays and
    objects, with blanks between tokens. *)
Module ExampleJson.

Fixpoint skip_blanks (s : string) : string :=
  match s with
  | String " " rest => skip_blanks rest
  | _ => s
  end.

Definition digit_value (c : ascii) : option Z :=
  let n := Z.of_nat (nat_of_ascii c) in
  if (48 <=? n) && (n <=? 57) then Some (n - 48) else None.

Fixpoint read_digits (s : string) (acc : Z) : Z * string :=
  match s with
  | String c rest =>
      match digit_value c with
      | Some d => read_digits rest (10 * acc + d)
      | None => (acc, s)
      end
  | EmptyString => (acc, s)
  end.

Definition read_nat (s : string) : option (Z * string) :=
  match s with
  | String c _ =>
      match digit_value c with
      | Some _ => Some (read_digits s 0)
      | None => None
      end
  | EmptyString => None
  end.

(** The text up to the closing quote, and what follows the quote. *)
Fixpoint read_chars (s : string) : option (string * string) :=
  match s with
  | String c rest =>
      if Ascii.eqb c (ascii_of_nat 34) then Some (EmptyString, rest)
      else if Ascii.eqb c (ascii_of_nat 92) then None
      else match read_chars rest with
           | Some (body, rest') => Some (String c body, rest')
           | None => None
           end
  | EmptyString => None
  end.

Definition strip_prefix (p s : string) : option string :=
  if String.prefix p s
  then Some (String.substring (String.length p)
               (String.length s - String.length p) s)
  else None.

Fixpoint read_value (fuel : nat) (s : string) : option (json * string) :=
  match fuel with
  | O => None
  | S fuel' =>
      match skip_blanks s with
      | String "n" _ => (fun r => (JNull, r)) <$> strip_prefix "null" (skip_blanks s)
      | String "t" _ => (fun r => (JBool true, r)) <$> strip_prefix "true" (skip_blanks s)
      | String "f" _ => (fun r => (JBool false, r)) <$> strip_prefix "false" (skip_blanks s)
      | String "-" rest =>
          (fun nr => (JInt (- fst nr), snd nr)) <$> read_nat rest
      | String "[" rest =>
          match skip_blanks rest with
          | String "]" rest' => Some (JArr [], rest')
          | _ => (fun ir => (JArr (fst ir), snd ir)) <$> read_items fuel' rest
          end
      | String "{" rest =>
          match skip_blanks rest with
          | String "}" rest' => Some (JObj [], rest')
          | _ => (fun fr => (JObj (fst fr), snd fr)) <$> read_fields fuel' rest
          end
      | String c rest =>
          if Ascii.eqb c (ascii_of_nat 34)
          then (fun br => (JStr (fst br), snd br)) <$> read_chars rest
          else (fun nr => (JInt (fst nr), snd nr)) <$> read_nat (String c rest)
      | EmptyString => None
      end
  end
with read_items (fuel : nat) (s : string) : option (list json * string) :=
  match fuel with
  | O => None
  | S fuel' =>
      match read_value fuel' s with
      | Some (v, rest) =>
          match skip_blanks rest with
          | String "," rest' =>
              (fun ir => (v :: fst ir, snd ir)) <$> read_items fuel' rest'
          | String "]" rest' => Some ([v], rest')
          | _ => None
          end
      | None => None
      end
  end
with read_fields (fuel : nat) (s : string)
    : option (list (string * json) * string) :=
  match fuel with
  | O => None
  | S fuel' =>
      match skip_blanks s with
      | String c rest =>
          if Ascii.eqb c (ascii_of_nat 34) then
            match read_chars rest with
            | Some (key, rest1) =>
                match skip_blanks rest1 with
                | String ":" rest2 =>
                    match read_value fuel' rest2 with
                    | Some (v, rest3) =>
                        match skip_blanks rest3 with
                        | String "," rest4 =>
                            (fun fr => ((key, v) :: fst fr, snd fr))
                              <$> read_fields fuel' rest4
                        | String "}" rest4 => Some ([(key, v)], rest4)
                        | _ => None
                        end
                    | None => None
                    end
                | _ => None
                end
            | None => None
            end
          else None
      | EmptyString => None
      end
  end.

Definition loads (s : string) : option json :=
  match read_value (3 * S (String.length s)) s with
  | Some (v, rest) =>
      match skip_blanks rest with
      | EmptyString => Some v
      | _ => None
      end
  | None => None
  end.

(** [str] of a parsed value whose strings need no escaping. *)
Fixpoint str_of (v : json) : string :=
  match v with
  | JNull => "None"
  | JBool b => if b then "True" else "False"
  | JInt n => pretty n
  | JFloat repr => repr
  | JStr s => "'" +:+ s +:+ "'"
  | JArr items => "[" +:+ String.concat ", " (map str_of items) +:+ "]"
  | JObj fields =>
      "{" +:+
      String.concat ", "
        (map (fun kv => let '(k, x) := kv in "'" +:+ k +:+ "': " +:+ str_of x)
             fields)
      +:+ "}"
  end.

End ExampleJson.

Definition quote : string := String (ascii_of_nat 34) EmptyString.


(** A client with a token, inside its [async with] block, that has sent
    nothing yet; the caller holds one header dictionary, at reference 0. *)
Definition example_custom_headers : gmap string pyval :=
  <["X-Trace" := PyNone]> (<["X-Retry" := PyInt 3]> (<["X-Mode" := PyStr "fast"]> ∅)).

Definition example_world : World :=
  snd (__aenter__
         {| client := __init__ "secret" (default_base_url +:+ "/");
            sent := [];
            heap := {[ 0%nat := example_custom_headers ]} |}).

(** A server that answers every call with an empty 204. *)
Definition server_no_content (call : HttpCall) : ClientResponse :=
  {| status := 204; json_result := Returns JNull; text := EmptyString |}.

(** A server that answers every call with the same body, as JSON. *)
Definition server_json (code : Z) (body : string) (call : HttpCall)
    : ClientResponse :=
  {| status := code;
     json_result :=
       match ExampleJson.loads body with
       | Some value => Returns value
       | None => Raises JSONDecodeError
       end;
     text := body |}.

(** The text of a JSON document, from pieces: [jstr s] is the string
    literal for [s], [jfield k v] the member [k: v]. *)
Definition jstr (s : string) : string :=
  String (ascii_of_nat 34) s +:+ String (ascii_of_nat 34) EmptyString.

Definition jfield (key value : string) : string := jstr key +:+ ": " +:+ value.

Definition jobject (members : list string) : string :=
  "{" +:+ String.concat ", " members +:+ "}".

Definition jarray (items : list string) : string :=
  "[" +:+ String.concat ", " items +:+ "]".

Definition example_book_text (id : string) (subject : string) : string :=
  jobject [jfield "id" id; jfield "user_id" "42"; jfield "subject_id" "null";
           jfield "subject_name" (jstr subject);
           jfield "url" (jstr "https://gdz.example/algebra");
           jfield "search_by" (jstr "number")].

Definition example_book (id : Z) (subject : string) : gdz.Book :=
  {| gdz.id := id; gdz.user_id := 42; gdz.subject_id := None;
     gdz.subject_name := Some subject;
     gdz.url := "https://gdz.example/algebra"; gdz.search_by := "number" |}.

Definition example_books_text : string :=
  jarray [example_book_text "2" "algebra"; example_book_text "1" "physics"].

(** A server whose answer is a 500 page that is not JSON. *)
Definition response_not_json : ClientResponse :=
  {| status := 500; json_result := Raises JSONDecodeError;
     text := "Internal Server Error" |}.

(** A 500 answer whose content type is not a JSON one. *)
Definition response_wrong_content_type : ClientResponse :=
  {| status := 500; json_result := Raises ContentTypeError;
     text := "<html>Bad Gateway</html>" |}.

(** A 404 answer whose body is a JSON array. *)
Definition response_json_array : ClientResponse :=
  {| status := 404; json_result := Returns (JArr [JStr "not found"]);
     text := jarray [jstr "not found"] |}.

(** The 404 answer of the error contract. *)
Definition response_not_found : ClientResponse :=
  {| status := 404;
     json_result := Returns (JObj [("description", JStr "not found")]);
     text := jobject [jfield "description" (jstr "not found")] |}.

Definition example_date : date := {| year := 2024; month := 3; day := 7 |}.

(** The header dictionary behind the [custom_headers] argument. *)
Definition custom_of (custom_headers : option nat) (w : World)
    : gmap string pyval :=
  match custom_headers with
  | Some l => heap w !!! l
  | None => ∅
  end.

(** The world that [headers] leaves behind. *)
Definition world_after_headers (custom_headers : option nat) (w : World) : World :=
  match custom_headers with
  | Some l =>
      if map_truthy (heap w !!! l)
      then {| client := client w; sent := sent w;
              heap := <[l := headers_clean (heap w !!! l)]> (heap w) |}
      else w
  | None => w
  end.

(** The call that [request] hands to the session, given the client and
    the custom headers as the caller passed them. *)
Definition request_call (method path : string) (custom_headers : option nat)
    (required_token : bool) (kw : kwargs) (w : World) : HttpCall :=
  {| call_method := method;
     call_url := init_params (base_url (client w) +:+ path)
                   (default [] (kw_params kw));
     call_headers :=
       omap clean_value (custom_of custom_headers w) ∪
       (if required_token
        then <["Authorization" := PyStr ("Bearer " +:+ token (client w))]> HEADERS
        else HEADERS);
     call_json := kw_json kw |}.

(** The world once [request] has dispatched [call]. *)
Definition world_after_call (custom_headers : option nat) (call : HttpCall)
    (w : World) : World :=
  {| client := client (world_after_headers custom_headers w);
     sent := sent (world_after_headers custom_headers w) ++ [call];
     heap := heap (world_after_headers custom_headers w) |}.

(** ** Timestamps *)

(** A [datetime.datetime] is a [datetime.date] with a time of day; the
    formatting helpers read its hour, minute and second only. *)
Inductive date_like : Type :=
| a_date (d : date)
| a_datetime (d : date) (hour minute second : Z).

Definition date_of (x : date_like) : date :=
  match x with
  | a_date d => d
  | a_datetime d _ _ _ => d
  end.

Definition time_valid (hour minute second : Z) : Prop :=
  0 <= hour <= 23 /\ 0 <= minute <= 59 /\ 0 <= second <= 59.

(** The format specification [:02] on a non-negative [int]. *)
Definition format_02 (n : Z) : string := zfill 2 (pretty n).

Section Clock.

(** The reading of [datetime.now(tz=timezone(timedelta(hours=3), "MSK"))]:
    a date and a time of day. *)
Variable now : date * (Z * Z * Z).

Definition datetime_now : date_like :=
  a_datetime (fst now) (fst (fst (snd now))) (snd (fst (snd now))) (snd (snd now)).

Definition datetime_to_string (dt : option date_like) : string :=
  let dt := match dt with Some x => x | None => datetime_now end in
  match dt with
  | a_datetime d hour minute second =>
      pretty (year d) +:+ "-" +:+ format_02 (month d) +:+ "-" +:+
      format_02 (day d) +:+ "T" +:+ format_02 hour +:+ ":" +:+
      format_02 minute +:+ ":" +:+ format_02 second
  | a_date d =>
      pretty (year d) +:+ "-" +:+ format_02 (month d) +:+ "-" +:+
      format_02 (day d)
  end.

Definition date_to_string (date : option date_like) : string :=
  let date :=
    match date with
    | Some x => x
    | None => a_date (date_of datetime_now)
    end in
  pretty (year (date_of date)) +:+ "-" +:+ format_02 (month (date_of date))
  +:+ "-" +:+ format_02 (day (date_of date)).

End Clock.

(** ** The other resource operations *)

(** The answer records of src/learnifyapi/types/api/gdz.py. *)
Module gdz_answer.

Record GdzSolution : Type := {
  page_number : Z;
  answer_url : string;
  image_urls : list json }.

Record GdzAnswer : Type := {
  user_id : option Z;
  book_id : option Z;
  subject_id : option Z;
  subject_name : option string;
  book_url : string;
  task_text : string;
  solutions : list GdzSolution }.

End gdz_answer.

Definition no_kwargs : kwargs := {| kw_params := None; kw_json := None |}.

Section Operations.

Variable server : HttpCall -> ClientResponse.
Variable json_loads : string -> option json.
Variable str_of_json : json -> string.

Context {DT : Type} {User : Type_ (user.User DT)} {Book : Type_ gdz.Book}
  {GdzAnswer : Type_ gdz_answer.GdzAnswer}.

Definition get_user (user_id : Z) : M (pyobj (user.User DT)) :=
  request server json_loads str_of_json
    "GET" ("/premium/users/" +:+ pretty user_id) None (Some User)
    false false false true false no_kwargs.

(** The result of [request] is dropped: the operation has no [return]. *)
Definition delete_user (user_id : Z) : M (pyobj Empty_set) :=
  let! _ :=
    request server json_loads str_of_json (A := Empty_set)
      "DELETE" ("/premium/users/" +:+ pretty user_id) None None
      false false false true false no_kwargs in
  ret RNone.

Definition activate_subscription (user_id : Z) (plan : string)
    : M (pyobj (user.User DT)) :=
  request server json_loads str_of_json
    "POST" ("/premium/users/" +:+ pretty user_id +:+ "/subscribe") None
    (Some User) false false false true false
    {| kw_params := None; kw_json := Some [("plan", PyStr plan)] |}.

Definition deactivate_subscription (user_id : Z) : M (pyobj (user.User DT)) :=
  request server json_loads str_of_json
    "POST" ("/premium/users/" +:+ pretty user_id +:+ "/unsubscribe") None
    (Some User) false false false true false no_kwargs.

Definition check_subscription (user_id : Z) : M (pyobj Empty_set) :=
  request server json_loads str_of_json (A := Empty_set)
    "GET" ("/premium/users/" +:+ pretty user_id +:+ "/subscription") None None
    false false true true false no_kwargs.

Definition create_book_body (user_id : Z) (url : string)
    (subject_id : option Z) (subject_name search_by : option string) : dict :=
  let body := [("user_id", PyInt user_id); ("url", PyStr url)] in
  let body := set_if "subject_id" PyInt subject_id body in
  let body := set_if "subject_name" PyStr subject_name body in
  let body := set_if "search_by" PyStr search_by body in
  body.

Definition create_book (user_id : Z) (url : string) (subject_id : option Z)
    (subject_name search_by : option string) : M (pyobj gdz.Book) :=
  let body := create_book_body user_id url subject_id subject_name search_by in
  request server json_loads str_of_json
    "POST" "/premium/gdz/books" None (Some Book)
    false false false true false
    {| kw_params := None; kw_json := Some body |}.

Definition get_book_by_id (book_id : Z) : M (pyobj gdz.Book) :=
  request server json_loads str_of_json
    "GET" ("/premium/gdz/book/" +:+ pretty book_id) None (Some Book)
    false false false true false no_kwargs.

Definition get_book_params (user_id : string) (book_id subject_id : option Z)
    (subject_name : option string) : dict :=
  let params := [("user_id", PyStr user_id)] in
  let params := set_if "book_id" PyInt book_id params in
  let params := set_if "subject_id" PyInt subject_id params in
  let params := set_if "subject_name" PyStr subject_name params in
  params.

Definition get_book (user_id : string) (book_id subject_id : option Z)
    (subject_name : option string) : M (pyobj gdz.Book) :=
  let params := get_book_params user_id book_id subject_id subject_name in
  request server json_loads str_of_json
    "GET" "/premium/gdz/books/search" None (Some Book)
    false false false true false
    {| kw_params := Some params; kw_json := None |}.

Definition delete_book (user_id book_id : Z) : M (pyobj Empty_set) :=
  let! _ :=
    request server json_loads str_of_json (A := Empty_set)
      "DELETE" ("/premium/gdz/books/" +:+ pretty book_id) None None
      false false false true false
      {| kw_params := Some [("user_id", PyInt user_id)]; kw_json := None |} in
  ret RNone.

Definition get_gdz_answers_params (task_text : string)
    (user_id book_id subject_id : option Z)
    (subject_name book_url search_by : option string) : dict :=
  let params := [("task_text", PyStr task_text)] in
  let params := set_if "user_id" PyInt user_id params in
  let params := set_if "book_id" PyInt book_id params in
  let params := set_if "subject_id" PyInt subject_id params in
  let params := set_if "subject_name" PyStr subject_name params in
  let params := set_if "book_url" PyStr book_url params in
  let params := set_if "search_by" PyStr search_by params in
  params.

Definition get_gdz_answers (task_text : string)
    (user_id book_id subject_id : option Z)
    (subject_name book_url search_by : option string)
    : M (pyobj gdz_answer.GdzAnswer) :=
  let params :=
    get_gdz_answers_params task_text user_id book_id subject_id subject_name
      book_url search_by in
  request server json_loads str_of_json
    "GET" "/premium/gdz/books/gdz" None (Some GdzAnswer)
    false false false true false
    {| kw_params := Some params; kw_json := None |}.

(** One call of the client's interface. *)
Inductive operation : Type :=
| call_create_user (user_id : Z) (expires_at : option date_instance)
    (plan_type : option string)
| call_get_user (user_id : Z)
| call_update_user (user_id : Z) (expires_at : option date_instance)
    (plan_type : option string) (is_active : option bool)
| call_delete_user (user_id : Z)
| call_activate_subscription (user_id : Z) (plan : string)
| call_deactivate_subscription (user_id : Z)
| call_check_subscription (user_id : Z)
| call_create_book (user_id : Z) (url : string) (subject_id : option Z)
    (subject_name search_by : option string)
| call_get_book_by_id (book_id : Z)
| call_get_book (user_id : string) (book_id subject_id : option Z)
    (subject_name : option string)
| call_update_book (user_id book_id : Z) (url : option string)
    (subject_id : option Z) (subject_name search_by : option string)
| call_delete_book (user_id book_id : Z)
| call_get_gdz_answers (task_text : string) (user_id book_id subject_id : option Z)
    (subject_name book_url search_by : option string).

(** The world that an operation leaves behind, whatever it returns or
    raises. *)
Definition world_after (op : operation) (w : World) : World :=
  match op with
  | call_create_user u e p =>
      snd (create_user server json_loads str_of_json u e p w)
  | call_get_user u => snd (get_user u w)
  | call_update_user u e p a =>
      snd (update_user server json_loads str_of_json u e p a w)
  | call_delete_user u => snd (delete_user u w)
  | call_activate_subscription u p => snd (activate_subscription u p w)
  | call_deactivate_subscription u => snd (deactivate_subscription u w)
  | call_check_subscription u => snd (check_subscription u w)
  | call_create_book u url si sn sb => snd (create_book u url si sn sb w)
  | call_get_book_by_id b => snd (get_book_by_id b w)
  | call_get_book u b si sn => snd (get_book u b si sn w)
  | call_update_book u b url si sn sb =>
      snd (update_book server json_loads str_of_json u b url si sn sb w)
  | call_delete_book u b => snd (delete_book u b w)
  | call_get_gdz_answers t u b si sn bu sb =>
      snd (get_gdz_answers t u b si sn bu sb w)
  end.

End Operations.

(** A string made of [n] slashes. *)
Fixpoint slashes (n : nat) : string :=
  match n with
  | O => EmptyString
  | S n' => String "/" (slashes n')
  end.

Fixpoint ends_with (c : ascii) (s : string) : bool :=
  match s with
  | EmptyString => false
  | String a EmptyString => Ascii.eqb a c
  | String _ rest => ends_with c rest
  end.

(** Every value of a header dictionary is a string. *)
Definition all_str (d : gmap string pyval) : Prop :=
  ∀ k v, d !! k = Some v → ∃ s, v = PyStr s.

(** The headers of a call that passes no custom headers. *)
Definition auth_headers (tok : string) : gmap string pyval :=
  <["Authorization" := PyStr ("Bearer " +:+ tok)]> HEADERS.

(** The printed number already has four digits. *)
Definition pretty_has_four_digits (n : Z) : bool :=
  String.eqb (zfill 4 (pretty n)) (pretty n).

(** The printed number has fewer than four digits. *)
Definition pretty_is_short (n : Z) : bool :=
  (String.length (pretty n) <? 4)%nat.

Definition example_now : date * (Z * Z * Z) := (example_date, (9, 5, 0)).

(** The [key=value] piece of a query string for an optional argument:
    nothing when the argument is absent. *)
Definition query_segment {V} (key : string) (print : V -> string)
    (arg : option V) : list string :=
  match arg with
  | Some v => [key +:+ "=" +:+ print v]
  | None => []
  end.

(** A server that answers every call with the same text, as plain text. *)
Definition server_text (code : Z) (body : string) (call : HttpCall)
    : ClientResponse :=
  {| status := code; json_result := Raises ContentTypeError; text := body |}.

(** * Properties *)

(** ** The cleaning loop of [headers] *)

Lemma headers_clean_fold_lookup (snapshot acc : gmap string pyval) (k : string) :
  map_fold headers_clean_step acc snapshot !! k =
    match snapshot !! k with
    | Some v =>
        if is_None v then None
        else if isinstance v cls_str then acc !! k
        else Some (PyStr (Py.str v))
    | None => acc !! k
    end.
Proof.
  revert k.
  apply (map_fold_weak_ind (λ r m, ∀ k, r !! k =
    match m !! k with
    | Some v =>
        if is_None v then None
        else if isinstance v cls_str then acc !! k
        else Some (PyStr (Py.str v))
    | None => acc !! k
    end)).
  - intros k. by rewrite lookup_empty.
  - intros i x m r Hi IH k. unfold headers_clean_step.
    destruct (decide (i = k)) as [->|Hne].
    + rewrite lookup_insert_eq. specialize (IH k). rewrite Hi in IH.
      destruct (is_None x); [by rewrite lookup_delete_eq|].
      destruct (isinstance x cls_str); simpl; [done|].
      by rewrite lookup_insert_eq.
    + rewrite (lookup_insert_ne m) by done. rewrite <- IH.
      destruct (is_None x); [by rewrite lookup_delete_ne|].
      destruct (isinstance x cls_str); simpl; [done|].
      by rewrite lookup_insert_ne.
Qed.

Lemma clean_value_cases (v : pyval) :
  clean_value v =
    if is_None v then None
    else if isinstance v cls_str then Some v
    else Some (PyStr (Py.str v)).
Proof. by destruct v. Qed.

Lemma headers_clean_lookup (d : gmap string pyval) (k : string) :
  headers_clean d !! k = d !! k ≫= clean_value.
Proof.
  unfold headers_clean. rewrite headers_clean_fold_lookup.
  destruct (d !! k) as [v|] eqn:Hk; simpl; [|done].
  rewrite clean_value_cases.
  destruct (is_None v); [done|]. by destruct (isinstance v cls_str).
Qed.

Lemma headers_clean_omap (d : gmap string pyval) :
  headers_clean d = omap clean_value d.
Proof. apply map_eq. intros k. by rewrite headers_clean_lookup, lookup_omap. Qed.

Lemma map_truthy_false (d : gmap string pyval) : map_truthy d = false → d = ∅.
Proof.
  unfold map_truthy. intros H. apply negb_false_iff in H.
  by apply bool_decide_eq_true in H.
Qed.

Lemma custom_after_headers (custom_headers : option nat) (w : World) :
  custom_of custom_headers (world_after_headers custom_headers w) =
  omap clean_value (custom_of custom_headers w).
Proof.
  destruct custom_headers as [l|]; simpl; [|by rewrite omap_empty].
  destruct (map_truthy (heap w !!! l)) eqn:Ht; simpl.
  - by rewrite lookup_total_insert_eq, headers_clean_omap.
  - apply map_truthy_false in Ht. rewrite Ht. by rewrite omap_empty.
Qed.

(** [headers] in closed form: the answer and the world left behind. *)
Lemma headers_unfold (require_token : bool) (custom_headers : option nat)
    (w : World) :
  headers require_token custom_headers w =
    (if negb (str_truthy (token (client w))) && require_token
     then Raises (ValueError "Token is required!")
     else Returns
            (omap clean_value (custom_of custom_headers w) ∪
             (if require_token
              then <["Authorization" := PyStr ("Bearer " +:+ token (client w))]> HEADERS
              else HEADERS)),
     world_after_headers custom_headers w).
Proof.
  rewrite <- custom_after_headers.
  unfold headers, bind, self, deref, store, ret, raise.
  destruct custom_headers as [l|]; simpl.
  - destruct (map_truthy (heap w !!! l)) eqn:Ht; simpl;
      by destruct (negb (str_truthy (token (client w))) && require_token).
  - by destruct (negb (str_truthy (token (client w))) && require_token).
Qed.

Lemma world_after_headers_frame (custom_headers : option nat) (w : World) :
  client (world_after_headers custom_headers w) = client w
  ∧ sent (world_after_headers custom_headers w) = sent w.
Proof.
  destruct custom_headers as [l|]; simpl; [|done].
  by destruct (map_truthy (heap w !!! l)).
Qed.

(** ** [request] in closed form *)

Lemma request_unfold (server : HttpCall -> ClientResponse)
    (json_loads : string -> option json) (str_of_json : json -> string)
    {A} (method path : string) (custom_headers : option nat)
    (model : option (Type_ A))
    (is_list return_json return_raw_text required_token return_raw_response : bool)
    (kw : kwargs) (w : World) :
  request server json_loads str_of_json method path custom_headers model
    is_list return_json return_raw_text required_token return_raw_response kw w =
  match session (client w) with
  | None => (Raises (RuntimeError session_not_initialized), w)
  | Some _ =>
      if negb (str_truthy (token (client w))) && required_token
      then (Raises (ValueError "Token is required!"),
            world_after_headers custom_headers w)
      else
        let call := request_call method path custom_headers required_token kw w in
        (handle_response json_loads str_of_json model is_list return_json
           return_raw_text return_raw_response (server call),
         world_after_call custom_headers call w)
  end.
Proof.
  unfold request. unfold bind at 1. unfold self at 1.
  destruct (session (client w)) as [s|]; [|done].
  unfold bind at 1. rewrite headers_unfold.
  destruct (negb (str_truthy (token (client w))) && required_token); [done|].
  destruct (world_after_headers_frame custom_headers w) as [Hc Hs].
  unfold bind, session_request, lift, request_call, world_after_call.
  by rewrite Hc.
Qed.

(** *** C10 *)

(** C10.  [headers] edits the caller's [custom_headers] dictionary in
    place, whether or not it then raises: a key bound to [None] is deleted,
    a value that is not a string is replaced by its [str], a string stays,
    no key is added; hence the dictionary the caller sees afterwards differs
    from the one passed whenever it held a [None] or a non-string value.
    Nothing else in the world changes. *)
Theorem headers_mutates_custom_headers (require_token : bool) (l : nat)
    (w : World) :
  let before := heap w !!! l in
  let w' := snd (headers require_token (Some l) w) in
  let after := heap w' !!! l in
  (∀ k, before !! k = Some PyNone → after !! k = None)
  ∧ (∀ k v, before !! k = Some v → v ≠ PyNone →
       isinstance v cls_str = false → after !! k = Some (PyStr (Py.str v)))
  ∧ (∀ k v, before !! k = Some v → isinstance v cls_str = true →
       after !! k = Some v)
  ∧ (∀ k, before !! k = None → after !! k = None)
  ∧ ((∃ k v, before !! k = Some v ∧ isinstance v cls_str = false) →
       after ≠ before)
  ∧ (∀ l', l' ≠ l → heap w' !!! l' = heap w !!! l')
  ∧ client w' = client w
  ∧ sent w' = sent w.
Proof.
  intros before w' after.
  assert (Hafter : after = omap clean_value before).
  { subst after w'. rewrite headers_unfold. simpl.
    exact (custom_after_headers (Some l) w). }
  assert (Hlk : ∀ k, after !! k = before !! k ≫= clean_value).
  { intros k. by rewrite Hafter, lookup_omap. }
  split_and!.
  - intros k Hk. by rewrite Hlk, Hk.
  - intros k v Hk Hv Hs. rewrite Hlk, Hk. simpl. by destruct v.
  - intros k v Hk Hs. rewrite Hlk, Hk. simpl. by destruct v.
  - intros k Hk. by rewrite Hlk, Hk.
  - intros (k & v & Hk & Hs) Heq.
    pose proof (Hlk k) as H. rewrite Heq, Hk in H. simpl in H.
    destruct v; simplify_eq/=.
  - intros l' Hne. subst w'. rewrite headers_unfold. simpl.
    destruct (map_truthy (heap w !!! l)); [|done]. simpl.
    by rewrite lookup_total_insert_ne.
  - subst w'. rewrite headers_unfold. simpl.
    apply (world_after_headers_frame (Some l) w).
  - subst w'. rewrite headers_unfold. simpl.
    apply (world_after_headers_frame (Some l) w).
Qed.

Lemma headers_mutates_custom_headers_witness :
  (heap (snd (headers true (Some 0%nat) example_world)) !!! 0%nat) !! "X-Trace"
    = None
  ∧ (heap (snd (headers true (Some 0%nat) example_world)) !!! 0%nat) !! "X-Retry"
    = Some (PyStr "3")
  ∧ (heap (snd (headers true (Some 0%nat) example_world)) !!! 0%nat) !! "X-Mode"
    = Some (PyStr "fast").
Proof.
  destruct (headers_mutates_custom_headers true 0 example_world)
    as (Hnone & Hstr & Hkeep & _).
  split_and!.
  - apply Hnone. by vm_compute.
  - apply (Hstr "X-Retry" (PyInt 3)); [by vm_compute|discriminate|reflexivity].
  - apply (Hkeep "X-Mode" (PyStr "fast")); [by vm_compute|reflexivity].
Defined.

(** *** C5 *)

Lemma HEADERS_keys (k : string) : is_Some (HEADERS !! k) ↔ k ∈ base_header_names.
Proof.
  unfold HEADERS, base_header_names. rewrite !lookup_insert_is_Some, lookup_empty.
  rewrite !elem_of_cons, elem_of_nil. split.
  - intros H. repeat (destruct H as [H|H]; [by auto 10|]).
    destruct H as [_ H]. repeat (destruct H as [_ H] || destruct H as [H|H]; eauto 10).
    by destruct H.
  - intros H.
    repeat (destruct H as [->|H]; [cbn; naive_solver|]). done.
Qed.

Lemma not_overrides_omap (custom : gmap string pyval) (k : string) :
  ¬ overrides custom k → omap clean_value custom !! k = None.
Proof.
  intros Hno. rewrite lookup_omap.
  destruct (custom !! k) as [v|] eqn:Hk; [|done]. simpl.
  destruct (decide (v = PyNone)) as [->|Hv]; [done|].
  exfalso. apply Hno. by exists v.
Qed.

Lemma str_truthy_false (s : string) : str_truthy s = false ↔ s = EmptyString.
Proof. by destruct s. Qed.

(** C5.  When auth is required and the token is empty, [headers] raises
    the configuration error, and [request] then fails without dispatching
    any call.  Otherwise [headers] returns a dictionary that has every one
    of the five base keys; the custom headers are laid over it last, every
    custom value other than [None] appearing as its [str]; a key that no
    custom header overrides carries the fixed base value, [Authorization]
    carries [Bearer <token>] exactly when auth is required, and no other
    key is present. *)
Theorem headers_construction (require_token : bool)
    (custom_headers : option nat) (w : World) :
  let custom := custom_of custom_headers w in
  let tok := token (client w) in
  match fst (headers require_token custom_headers w) with
  | Raises e =>
      e = ValueError "Token is required!" ∧ require_token = true
      ∧ tok = EmptyString
  | Returns H =>
      (require_token = true → tok ≠ EmptyString)
      ∧ (∀ k, k ∈ base_header_names → is_Some (H !! k))
      ∧ (∀ k v, HEADERS !! k = Some v → ¬ overrides custom k → H !! k = Some v)
      ∧ (¬ overrides custom "Authorization" →
           H !! "Authorization" =
             if require_token then Some (PyStr ("Bearer " +:+ tok)) else None)
      ∧ (∀ k v, custom !! k = Some v → v ≠ PyNone →
           H !! k = Some (PyStr (Py.str v)))
      ∧ (∀ k, ¬ overrides custom k → k ∉ base_header_names →
           k ≠ "Authorization" → H !! k = None)
  end
  ∧ (∀ (server : HttpCall -> ClientResponse)
       (json_loads : string -> option json) (str_of_json : json -> string)
       (A : Type) (method path : string) (model : option (Type_ A))
       (is_list return_json return_raw_text return_raw_response : bool)
       (kw : kwargs),
       tok = EmptyString →
       ∃ e w',
         request server json_loads str_of_json method path custom_headers
           model is_list return_json return_raw_text true
           return_raw_response kw w = (Raises e, w')
         ∧ sent w' = sent w
         ∧ (is_Some (session (client w)) → e = ValueError "Token is required!")).
Proof.
  intros custom tok. split.
  - rewrite headers_unfold. simpl. fold custom tok.
    destruct (negb (str_truthy tok) && require_token) eqn:Hguard; simpl.
    + apply andb_true_iff in Hguard as [Ht Hr].
      apply negb_true_iff, str_truthy_false in Ht. done.
    + assert (Hbase : ∀ k, k ≠ "Authorization" →
        (if require_token
         then <["Authorization" := PyStr ("Bearer " +:+ tok)]> HEADERS
         else HEADERS) !! k = HEADERS !! k).
      { intros k Hk. destruct require_token; [|done]. by rewrite lookup_insert_ne. }
      split_and!.
      * intros Hr Ht. by rewrite Hr, Ht in Hguard.
      * intros k Hk. rewrite lookup_union_is_Some. right.
        assert (k ≠ "Authorization").
        { intros ->. apply HEADERS_keys in Hk as [x Hx]. by vm_compute in Hx. }
        rewrite Hbase by done. by apply HEADERS_keys.
      * intros k v Hk Hno.
        assert (k ≠ "Authorization") by (intros ->; done).
        rewrite lookup_union_r by (by apply not_overrides_omap).
        by rewrite Hbase.
      * intros Hno. rewrite lookup_union_r by (by apply not_overrides_omap).
        destruct require_token; [by rewrite lookup_insert_eq|done].
      * intros k v Hk Hv. apply lookup_union_Some_l.
        rewrite lookup_omap, Hk. simpl. by destruct v.
      * intros k Hno Hk Hauth.
        rewrite lookup_union_r by (by apply not_overrides_omap).
        rewrite Hbase by done.
        destruct (HEADERS !! k) eqn:Hl; [|done].
        exfalso. apply Hk, HEADERS_keys. by rewrite Hl.
  - intros server json_loads str_of_json A method path model il rj rt rr kw Htok.
    rewrite request_unfold.
    destruct (session (client w)) as [s|] eqn:Hs.
    + fold tok. rewrite Htok. simpl.
      eexists _, _. split; [done|]. split; [|done].
      apply (world_after_headers_frame custom_headers w).
    + eexists _, _. split; [done|]. split; [done|].
      intros [? ?]. done.
Qed.

Lemma headers_construction_witness :
  ∃ H, fst (headers true (Some 0%nat) example_world) = Returns H
       ∧ H !! "Authorization" = Some (PyStr "Bearer secret")
       ∧ H !! "Content-Type" = Some (PyStr "application/json")
       ∧ H !! "X-Retry" = Some (PyStr "3")
       ∧ H !! "X-Trace" = None.
Proof.
  pose proof (headers_construction true (Some 0%nat) example_world) as [Hh _].
  cbv zeta in Hh.
  destruct (fst (headers true (Some 0%nat) example_world)) as [H|e].
  - exists H. split; [reflexivity|].
    destruct Hh as (_ & _ & Hbase & Hauth & Hcustom & Hother). split_and!.
    + apply Hauth. intros (v & Hv & _). by vm_compute in Hv.
    + apply Hbase; [by vm_compute|]. intros (v & Hv & _). by vm_compute in Hv.
    + apply (Hcustom "X-Retry" (PyInt 3)); [by vm_compute|discriminate].
    + apply Hother.
      * intros (v & Hv & Hne). vm_compute in Hv. by injection Hv as <-.
      * intros Hin. apply HEADERS_keys in Hin as [x Hx]. by vm_compute in Hx.
      * discriminate.
  - destruct Hh as (_ & _ & Htok). discriminate Htok.
Defined.

(** *** C4 *)

(** C4.  [update_user] with [expires_at], [plan_type] and [is_active] all
    absent, and [update_book] with [url], [subject_id], [subject_name] and
    [search_by] all absent, raise [ValueError] and leave the world as it
    was: no call is added to the log of the session and the client is
    untouched. *)
Theorem update_without_fields_raises (server : HttpCall -> ClientResponse)
    (json_loads : string -> option json) (str_of_json : json -> string)
    (DT : Type) (User : Type_ (user.User DT)) (Book : Type_ gdz.Book)
    (user_id book_id : Z) (w : World) :
  update_user server json_loads str_of_json user_id None None None w =
    (Raises (ValueError "No fields provided for update"), w)
  ∧ update_book server json_loads str_of_json user_id book_id
      None None None None w =
    (Raises (ValueError "No fields provided for update"), w).
Proof. split; reflexivity. Qed.

(** *** C6 and C7 *)

Lemma check_response_success (str_of_json : json -> string)
    (response : ClientResponse) :
  status response < 400 → _check_response str_of_json response = Returns tt.
Proof.
  intros H. unfold _check_response.
  destruct (400 <=? status response) eqn:E; [|done].
  apply Z.leb_le in E. lia.
Qed.

Lemma token_guard_passes (tok : string) (required_token : bool) :
  (required_token = true → tok ≠ EmptyString) →
  negb (str_truthy tok) && required_token = false.
Proof.
  intros H. destruct required_token; [|by rewrite andb_false_r].
  rewrite andb_true_r. apply negb_false_iff.
  destruct tok; [by destruct H|done].
Qed.

(** C6.  With an active session and the token guard passed, a response
    whose status is below 400 and whose text is empty makes [request]
    return [None], whatever the five decode flags and the schema are. *)
Theorem empty_body_returns_None (server : HttpCall -> ClientResponse)
    (json_loads : string -> option json) (str_of_json : json -> string)
    (A : Type) (method path : string) (custom_headers : option nat)
    (model : option (Type_ A))
    (is_list return_json return_raw_text required_token return_raw_response : bool)
    (kw : kwargs) (w : World) :
  is_Some (session (client w)) →
  (required_token = true → token (client w) ≠ EmptyString) →
  let call := request_call method path custom_headers required_token kw w in
  status (server call) < 400 →
  text (server call) = EmptyString →
  request server json_loads str_of_json method path custom_headers model
    is_list return_json return_raw_text required_token return_raw_response kw w =
  (Returns RNone, world_after_call custom_headers call w).
Proof.
  intros [s Hs] Htok call Hstatus Htext.
  rewrite request_unfold, Hs, (token_guard_passes _ _ Htok). cbv zeta.
  fold call. f_equal.
  unfold handle_response. rewrite (check_response_success _ _ Hstatus).
  simpl. by rewrite Htext.
Qed.

Lemma empty_body_returns_None_witness :
  request server_no_content ExampleJson.loads ExampleJson.str_of
    "DELETE" "/premium/users/7" None (None : option (Type_ gdz.Book))
    true true true true true
    {| kw_params := None; kw_json := None |} example_world =
  (Returns RNone,
   world_after_call None
     (request_call "DELETE" "/premium/users/7" None true
        {| kw_params := None; kw_json := None |} example_world)
     example_world).
Proof.
  apply (empty_body_returns_None server_no_content ExampleJson.loads
           ExampleJson.str_of gdz.Book "DELETE" "/premium/users/7" None None
           true true true true true
           {| kw_params := None; kw_json := None |} example_world).
  - by eexists.
  - intros _. discriminate.
  - reflexivity.
  - reflexivity.
Defined.

Lemma select_mode_priority {A} (return_raw_response return_json
    return_raw_text is_list : bool) (model : option (Type_ A)) :
  (return_raw_response = true →
     select_mode return_raw_response return_json return_raw_text is_list model
     = RawResponse)
  ∧ (return_raw_response = false → return_json = true →
     select_mode return_raw_response return_json return_raw_text is_list model
     = ParsedJson)
  ∧ (return_raw_response = false → return_json = false →
     return_raw_text = true →
     select_mode return_raw_response return_json return_raw_text is_list model
     = RawText)
  ∧ (return_raw_response = false → return_json = false →
     return_raw_text = false → is_list = true →
     select_mode return_raw_response return_json return_raw_text is_list model
     = ListOfSchema model)
  ∧ (∀ m, return_raw_response = false → return_json = false →
     return_raw_text = false → is_list = false → model = Some m →
     select_mode return_raw_response return_json return_raw_text is_list model
     = SingleSchema m)
  ∧ (return_raw_response = false → return_json = false →
     return_raw_text = false → is_list = false → model = None →
     select_mode return_raw_response return_json return_raw_text is_list model
     = RawTextNoSchema).
Proof. split_and!; intros; subst; reflexivity. Qed.

Lemma handle_response_decode (json_loads : string -> option json)
    (str_of_json : json -> string) {A} (model : option (Type_ A))
    (is_list return_json return_raw_text return_raw_response : bool)
    (response : ClientResponse) :
  status response < 400 →
  text response ≠ EmptyString →
  handle_response json_loads str_of_json model is_list return_json
    return_raw_text return_raw_response response =
  decode_as json_loads
    (select_mode return_raw_response return_json return_raw_text is_list model)
    response.
Proof.
  intros Hstatus Htext. unfold handle_response.
  rewrite (check_response_success _ _ Hstatus). simpl.
  destruct (text response) eqn:Ht; [done|]. simpl.
  unfold select_mode.
  destruct return_raw_response; [done|].
  destruct return_json; [simpl; by destruct (json_result response)|].
  destruct return_raw_text; [simpl; by rewrite Ht|].
  destruct is_list; [simpl; by rewrite Ht|].
  destruct model as [m|]; simpl; rewrite Ht; [|done].
  by destruct (model_validate_json json_loads m _).
Qed.

(** C7.  With an active session and the token guard passed, a response
    whose status is below 400 and whose text is not empty is decoded in
    exactly one mode, the one [select_mode] picks: the raw response if
    [return_raw_response]; else the parsed JSON if [return_json]; else the
    text if [return_raw_text]; else a list of the schema if [is_list]; else
    one record of the schema if a schema is given; else the text. *)
Theorem decode_mode_priority (server : HttpCall -> ClientResponse)
    (json_loads : string -> option json) (str_of_json : json -> string)
    (A : Type) (method path : string) (custom_headers : option nat)
    (model : option (Type_ A))
    (is_list return_json return_raw_text required_token return_raw_response : bool)
    (kw : kwargs) (w : World) :
  is_Some (session (client w)) →
  (required_token = true → token (client w) ≠ EmptyString) →
  let call := request_call method path custom_headers required_token kw w in
  let response := server call in
  let mode :=
    select_mode return_raw_response return_json return_raw_text is_list model in
  status response < 400 →
  text response ≠ EmptyString →
  request server json_loads str_of_json method path custom_headers model
    is_list return_json return_raw_text required_token return_raw_response kw w =
    (decode_as json_loads mode response, world_after_call custom_headers call w)
  ∧ (return_raw_response = true → mode = RawResponse)
  ∧ (return_raw_response = false → return_json = true → mode = ParsedJson)
  ∧ (return_raw_response = false → return_json = false →
     return_raw_text = true → mode = RawText)
  ∧ (return_raw_response = false → return_json = false →
     return_raw_text = false → is_list = true → mode = ListOfSchema model)
  ∧ (∀ m, return_raw_response = false → return_json = false →
     return_raw_text = false → is_list = false → model = Some m →
     mode = SingleSchema m)
  ∧ (return_raw_response = false → return_json = false →
     return_raw_text = false → is_list = false → model = None →
     mode = RawTextNoSchema).
Proof.
  intros [s Hs] Htok call response mode Hstatus Htext. split.
  - rewrite request_unfold, Hs, (token_guard_passes _ _ Htok). cbv zeta.
    fold call response. f_equal.
    by apply handle_response_decode.
  - apply select_mode_priority.
Qed.

Lemma decode_mode_priority_witness :
  request (server_json 200 example_books_text) ExampleJson.loads
    ExampleJson.str_of "GET" "/premium/gdz/books/search" None
    (Some BookSchema.Book) true true true true false
    {| kw_params := Some [("user_id", PyInt 42)]; kw_json := None |}
    example_world =
  (Returns
     (RJson (JArr [JObj [("id", JInt 2); ("user_id", JInt 42);
                         ("subject_id", JNull); ("subject_name", JStr "algebra");
                         ("url", JStr "https://gdz.example/algebra");
                         ("search_by", JStr "number")];
                   JObj [("id", JInt 1); ("user_id", JInt 42);
                         ("subject_id", JNull); ("subject_name", JStr "physics");
                         ("url", JStr "https://gdz.example/algebra");
                         ("search_by", JStr "number")]])),
   world_after_call None
     (request_call "GET" "/premium/gdz/books/search" None true
        {| kw_params := Some [("user_id", PyInt 42)]; kw_json := None |}
        example_world)
     example_world).
Proof.
  refine (proj1 (decode_mode_priority (server_json 200 example_books_text)
           ExampleJson.loads ExampleJson.str_of gdz.Book "GET"
           "/premium/gdz/books/search" None (Some BookSchema.Book)
           true true true true false
           {| kw_params := Some [("user_id", PyInt 42)]; kw_json := None |}
           example_world _ _ _ _)).
  - by eexists.
  - intros _. discriminate.
  - reflexivity.
  - discriminate.
Defined.

(** *** C8 *)

Lemma mapM_validate_item_Some {A} (model : Type_ A) (items : list json)
    (records : list A) :
  Forall2 (λ item record, model_validate item = Some record) items records →
  mapM (validate_item (Some model)) items = Some (RModel <$> records).
Proof.
  intros H. apply mapM_Some. induction H as [|item record items records Hv _ IH].
  - constructor.
  - rewrite fmap_cons. constructor; [|done]. simpl. by rewrite Hv.
Qed.

Lemma mapM_validate_item_inv {A} (model : Type_ A) (items : list json)
    (objs : list (pyobj A)) :
  mapM (validate_item (Some model)) items = Some objs →
  ∃ records, objs = RModel <$> records
    ∧ Forall2 (λ item record, model_validate item = Some record) items records.
Proof.
  intros H. apply mapM_Some in H.
  induction H as [|item obj items objs Hv _ (records & -> & IH)].
  - by exists [].
  - simpl in Hv. destruct (model_validate item) as [record|] eqn:E; [|done].
    simpl in Hv. injection Hv as <-.
    exists (record :: records). split; [done|]. by constructor.
Qed.

Lemma mapM_validate_item_None {A} (model : Type_ A) (items : list json)
    (item : json) :
  item ∈ items → model_validate item = None →
  mapM (validate_item (Some model)) items = None.
Proof.
  intros Hin Hv.
  destruct (mapM (validate_item (Some model)) items) as [objs|] eqn:E; [|done].
  apply mapM_Some in E.
  apply list_elem_of_lookup in Hin as [i Hi].
  destruct (Forall2_lookup_l _ _ _ i item E Hi) as (obj & _ & Hobj).
  simpl in Hobj. by rewrite Hv in Hobj.
Qed.

(** C8.  List decoding against the [Book] schema.  The JSON value [null]
    gives [None] and no error.  A JSON array gives a list of [Book] records
    of the same length, the record at each position being the one its
    schema makes of the array element at that position; the list is built
    whenever every element is accepted by the schema, and an element that
    the schema rejects makes the whole decoding a validation error. *)
Theorem parse_list_models_Book (json_loads : string -> option json)
    (Book : Type_ gdz.Book) (response : string) :
  (json_loads response = Some JNull →
     parse_list_models json_loads (Some Book) response = Returns RNone)
  ∧ (∀ items, json_loads response = Some (JArr items) →
       (∀ books,
          Forall2 (λ item book, model_validate item = Some book) items books →
          parse_list_models json_loads (Some Book) response =
            Returns (RList (RModel <$> books)))
       ∧ (∀ root,
            parse_list_models json_loads (Some Book) response = Returns root →
            ∃ books : list gdz.Book,
              root = RList (RModel <$> books)
              ∧ length books = length items
              ∧ ∀ i item, items !! i = Some item →
                  ∃ book, books !! i = Some book
                          ∧ model_validate item = Some book)
       ∧ (∀ item, item ∈ items → model_validate item = None →
            parse_list_models json_loads (Some Book) response =
              Raises ValidationError)).
Proof.
  split.
  - intros H. unfold parse_list_models. by rewrite H.
  - intros items H. unfold parse_list_models. rewrite H. simpl. split_and!.
    + intros books Hall. by rewrite (mapM_validate_item_Some Book items books Hall).
    + intros root Hroot.
      destruct (mapM (validate_item (Some Book)) items) as [objs|] eqn:E;
        simpl in Hroot; [|done].
      injection Hroot as <-.
      destruct (mapM_validate_item_inv Book items objs E) as (books & -> & Hall).
      exists books. split; [done|]. split.
      * symmetry. by eapply Forall2_length.
      * intros i item Hi.
        destruct (Forall2_lookup_l _ _ _ i item Hall Hi) as (book & Hb & Hv).
        by exists book.
    + intros item Hin Hv. by rewrite (mapM_validate_item_None Book items item Hin Hv).
Qed.

Lemma parse_list_models_Book_witness :
  parse_list_models ExampleJson.loads (Some BookSchema.Book) example_books_text =
    Returns (RList [RModel (example_book 2 "algebra");
                    RModel (example_book 1 "physics")])
  ∧ parse_list_models ExampleJson.loads (Some BookSchema.Book) "null" =
    Returns RNone.
Proof.
  destruct (parse_list_models_Book ExampleJson.loads BookSchema.Book
              example_books_text) as [_ Harr].
  destruct (parse_list_models_Book ExampleJson.loads BookSchema.Book "null")
    as [Hnull _].
  split.
  - refine (proj1 (Harr _ _) [example_book 2 "algebra"; example_book 1 "physics"] _).
    + reflexivity.
    + repeat constructor.
  - apply Hnull. reflexivity.
Defined.

(** *** C9 *)

Lemma zfill_agrees_upto (width : nat) (bound n : Z) :
  forallb (zfill_agrees width) (seqZ 0 bound) = true →
  0 <= n < bound → zfill width (pretty n) = fixed_width width n.
Proof.
  intros Hall Hn. apply String.eqb_eq.
  rewrite forallb_forall in Hall. apply Hall.
  apply list_elem_of_In, elem_of_seqZ. lia.
Qed.

Lemma zfill_fixed_width_4 (n : Z) :
  0 <= n < 10000 → zfill 4 (pretty n) = fixed_width 4 n.
Proof. apply zfill_agrees_upto. vm_compute. reflexivity. Qed.

Lemma zfill_fixed_width_2 (n : Z) :
  0 <= n < 100 → zfill 2 (pretty n) = fixed_width 2 n.
Proof. apply zfill_agrees_upto. vm_compute. reflexivity. Qed.

Lemma days_in_month_le (y m : Z) : days_in_month y m <= 31.
Proof.
  unfold days_in_month.
  repeat match goal with |- context [if ?b then _ else _] => destruct b end; lia.
Qed.

Lemma isoformat_fixed_width (d : date) :
  date_valid d →
  isoformat d =
    fixed_width 4 (year d) +:+ "-" +:+ fixed_width 2 (month d) +:+ "-" +:+
    fixed_width 2 (day d).
Proof.
  intros (Hy & Hm & Hd). pose proof (days_in_month_le (year d) (month d)).
  unfold isoformat.
  rewrite zfill_fixed_width_4 by lia.
  by rewrite !zfill_fixed_width_2 by lia.
Qed.

Lemma is_digit_digit_at (n : Z) (i : nat) : is_digit (digit_at n i) = true.
Proof.
  unfold digit_at.
  pose proof (Z.mod_pos_bound (n / 10 ^ Z.of_nat i) 10 ltac:(lia)) as Hb.
  set (k := (n / 10 ^ Z.of_nat i) mod 10) in *.
  assert (Hk : (Z.to_nat k < 10)%nat) by lia.
  destruct (Z.to_nat k) as [|[|[|[|[|[|[|[|[|[|?]]]]]]]]]]; try reflexivity; lia.
Qed.

Lemma date_only_shape_fixed_width (y m d : Z) :
  date_only_shape
    (fixed_width 4 y +:+ "-" +:+ fixed_width 2 m +:+ "-" +:+ fixed_width 2 d)
  = true.
Proof.
  cbv [fixed_width String.append date_only_shape forallb].
  by rewrite !is_digit_digit_at.
Qed.

Lemma instance_isoformat_datetime (d : date)
    (hour minute second microsecond : Z) (utcoffset : option Z) :
  date_valid d → time_valid hour minute second →
  instance_isoformat (full_datetime d hour minute second microsecond utcoffset)
  = (fixed_width 4 (year d) +:+ "-" +:+ fixed_width 2 (month d) +:+ "-"
     +:+ fixed_width 2 (day d))
    +:+ "T" +:+ fixed_width 2 hour +:+ ":" +:+ fixed_width 2 minute +:+ ":"
    +:+ fixed_width 2 second +:+ format_fraction microsecond
    +:+ format_offset utcoffset.
Proof.
  intros Hvalid (Hh & Hm & Hs). unfold instance_isoformat.
  rewrite (isoformat_fixed_width d Hvalid).
  by rewrite !zfill_fixed_width_2 by lia.
Qed.

(** The text that the body of [create_user] carries for a [datetime]
    argument is not of the date-only shape. *)
Lemma create_user_datetime_not_date_only :
  Py.get "expires_at"
    (create_user_body 7 (Some (full_datetime example_date 9 5 0 0 None)) None)
  = Some (PyStr "2024-03-07T09:05:00")
  ∧ date_only_shape "2024-03-07T09:05:00" = false.
Proof. split; reflexivity. Qed.

(** C9, as amended.  The body that [create_user] sends: [user_id] is always
    there; [expires_at] is there exactly when the argument is given, as
    what its [isoformat] method returns; [plan_type] is there exactly when
    the argument is given; there is no other key.  For a plain date of the
    calendar that text has the shape [YYYY-MM-DD], ten characters, made of
    the four digits of the year, the two digits of the month and the two
    digits of the day, leading zeros included.  For a [datetime] it is this
    date text followed by [T], the hour, minute and second on two digits
    each, then the microseconds and the UTC offset when there are any, and
    so it is not of the date-only shape.  This body is the [json] argument
    of the one call that [create_user] dispatches. *)
Theorem create_user_body_fields (server : HttpCall -> ClientResponse)
    (json_loads : string -> option json) (str_of_json : json -> string)
    (DT : Type) (User : Type_ (user.User DT))
    (user_id : Z) (expires_at : option date_instance)
    (plan_type : option string) (w : World) :
  let body := create_user_body user_id expires_at plan_type in
  let call :=
    request_call "POST" "/premium/users" None true
      {| kw_params := None; kw_json := Some body |} w in
  let w' :=
    snd (create_user server json_loads str_of_json user_id expires_at
           plan_type w) in
  Py.get "user_id" body = Some (PyInt user_id)
  ∧ Py.get "expires_at" body =
      (λ x, PyStr (instance_isoformat x)) <$> expires_at
  ∧ Py.get "plan_type" body = PyStr <$> plan_type
  ∧ (∀ k, k ∈ Py.keys body →
       k = "user_id" ∨ (k = "expires_at" ∧ is_Some expires_at)
       ∨ (k = "plan_type" ∧ is_Some plan_type))
  ∧ (∀ d, expires_at = Some (plain_date d) → date_valid d →
       date_only_shape (instance_isoformat (plain_date d)) = true
       ∧ String.length (instance_isoformat (plain_date d)) = 10%nat
       ∧ instance_isoformat (plain_date d) =
           fixed_width 4 (year d) +:+ "-" +:+ fixed_width 2 (month d) +:+ "-"
           +:+ fixed_width 2 (day d))
  ∧ (∀ d hour minute second microsecond utcoffset,
       expires_at =
         Some (full_datetime d hour minute second microsecond utcoffset) →
       date_valid d → time_valid hour minute second →
       instance_isoformat
         (full_datetime d hour minute second microsecond utcoffset) =
         (fixed_width 4 (year d) +:+ "-" +:+ fixed_width 2 (month d) +:+ "-"
          +:+ fixed_width 2 (day d))
         +:+ "T" +:+ fixed_width 2 hour +:+ ":" +:+ fixed_width 2 minute
         +:+ ":" +:+ fixed_width 2 second +:+ format_fraction microsecond
         +:+ format_offset utcoffset
       ∧ date_only_shape
           (instance_isoformat
              (full_datetime d hour minute second microsecond utcoffset))
         = false)
  ∧ call_json call = Some body
  ∧ call_method call = "POST"
  ∧ (sent w' = sent w ∨ sent w' = (sent w ++ [call])%list)
  ∧ (is_Some (session (client w)) → token (client w) ≠ EmptyString →
       sent w' = (sent w ++ [call])%list).
Proof.
  intros body call w'. split_and!.
  - subst body. by destruct expires_at, plan_type.
  - subst body. by destruct expires_at, plan_type.
  - subst body. by destruct expires_at, plan_type.
  - subst body. intros k.
    destruct expires_at, plan_type; cbn;
      rewrite ?elem_of_cons, elem_of_nil; intros H;
      repeat (destruct H as [->|H];
              [first [ by left
                     | by right; left; split; [|eexists]
                     | by right; right; split; [|eexists] ]|]);
      done.
  - intros d _ Hvalid. cbn [instance_isoformat].
    rewrite (isoformat_fixed_width d Hvalid).
    split; [apply date_only_shape_fixed_width|]. split; reflexivity.
  - intros d hour minute second microsecond utcoffset _ Hvalid Htime.
    rewrite (instance_isoformat_datetime d hour minute second microsecond
               utcoffset Hvalid Htime).
    split; reflexivity.
  - reflexivity.
  - reflexivity.
  - subst w'. unfold create_user. rewrite request_unfold. fold body.
    destruct (session (client w)); [|by left].
    destruct (negb (str_truthy (token (client w))) && true); [by left|].
    by right.
  - intros [s Hs] Htok. subst w'. unfold create_user.
    rewrite request_unfold, Hs. fold body.
    by rewrite (token_guard_passes _ true (λ _, Htok)).
Qed.

Lemma create_user_body_fields_witness :
  Py.get "expires_at" (create_user_body 7 (Some (plain_date example_date)) None)
    = Some (PyStr "2024-03-07")
  ∧ date_only_shape (instance_isoformat (plain_date example_date)) = true
  ∧ instance_isoformat (full_datetime example_date 9 5 0 0 (Some 10800000000))
    = "2024-03-07T09:05:00+03:00"
  ∧ sent (snd (create_user server_no_content ExampleJson.loads
                 ExampleJson.str_of (User := no_User) 7
                 (Some (plain_date example_date)) None example_world)) =
    [request_call "POST" "/premium/users" None true
       {| kw_params := None;
          kw_json :=
            Some (create_user_body 7 (Some (plain_date example_date)) None) |}
       example_world].
Proof.
  destruct (create_user_body_fields server_no_content ExampleJson.loads
              ExampleJson.str_of unit no_User 7
              (Some (plain_date example_date)) None example_world)
    as (_ & Hexpires & _ & _ & Hdate & _ & _ & _ & _ & Hsent).
  destruct (create_user_body_fields server_no_content ExampleJson.loads
              ExampleJson.str_of unit no_User 7
              (Some (full_datetime example_date 9 5 0 0 (Some 10800000000)))
              None example_world)
    as (_ & _ & _ & _ & _ & Hdatetime & _).
  split; [exact Hexpires|]. split; [|split].
  - apply (Hdate example_date eq_refl). repeat split; by vm_compute.
  - refine (eq_trans (proj1 (Hdatetime example_date 9 5 0 0 (Some 10800000000)
                              eq_refl _ _)) _).
    + repeat split; by vm_compute.
    + repeat split; by vm_compute.
    + reflexivity.
  - apply Hsent; [by eexists|discriminate].
Defined.

(** ** Error responses *)

(** What [_check_response] does on the error contract: a JSON object
    with a [description] makes an [APIError] with the status and that
    description. *)
Lemma check_response_description (str_of_json : json -> string)
    (response : ClientResponse) (fields : list (string * json))
    (description : json) :
  400 <= status response →
  json_result response = Returns (JObj fields) →
  json_get "description" fields = Some description →
  _check_response str_of_json response =
    Raises (APIError (status response) description).
Proof.
  intros Hstatus Hjson Hd. unfold _check_response, check_response_try.
  apply Z.leb_le in Hstatus. rewrite Hstatus, Hjson. simpl.
  unfold get_description. by rewrite Hd.
Qed.

(** Whenever the handler of [_check_response] runs, it fails on the
    unassigned local. *)
Lemma check_response_handler_unbound (str_of_json : json -> string)
    (response : ClientResponse) (error : exn) :
  400 <= status response →
  json_result response = Raises error →
  _check_response str_of_json response =
    Raises (if caught error then UnboundLocalError "json_response" else error).
Proof.
  intros Hstatus Hjson. unfold _check_response, check_response_try.
  apply Z.leb_le in Hstatus. rewrite Hstatus, Hjson.
  by destruct (caught error).
Qed.

(** A JSON body that is not an object raises nothing. *)
Lemma check_response_not_object (str_of_json : json -> string)
    (response : ClientResponse) (value : json) :
  json_result response = Returns value →
  (∀ fields, value ≠ JObj fields) →
  _check_response str_of_json response = Returns tt.
Proof.
  intros Hjson Hno. unfold _check_response, check_response_try.
  rewrite Hjson. destruct (400 <=? status response); [|done].
  destruct value; try done. by destruct (Hno fields).
Qed.

Example check_response_not_found (str_of_json : json -> string) :
  _check_response str_of_json response_not_found =
    Raises (APIError 404 (JStr "not found")).
Proof. reflexivity. Qed.

(** C1.  On a status-500 response whose body is not JSON, and on one whose
    content type is not a JSON one, [_check_response] does not raise an
    [APIError]: its handler reads the local [json_response], which the
    failed [await response.json()] never assigned, and the call ends in
    [UnboundLocalError]; so does the [request] that received the
    response. *)
Theorem check_response_non_json_body (str_of_json : json -> string)
    (json_loads : string -> option json) :
  _check_response str_of_json response_not_json =
    Raises (UnboundLocalError "json_response")
  ∧ _check_response str_of_json response_wrong_content_type =
    Raises (UnboundLocalError "json_response")
  ∧ fst (request (λ _, response_not_json) json_loads str_of_json
           "GET" "/premium/users/7" None (None : option (Type_ gdz.Book))
           false false false true false
           {| kw_params := None; kw_json := None |} example_world) =
    Raises (UnboundLocalError "json_response").
Proof. split_and!; reflexivity. Qed.

(** C3.  On a status-404 response whose body is a JSON array,
    [_check_response] returns without raising, and [request] goes on to
    decode the body as if the call had succeeded. *)
Theorem check_response_json_array (str_of_json : json -> string)
    (json_loads : string -> option json) :
  _check_response str_of_json response_json_array = Returns tt
  ∧ fst (request (λ _, response_json_array) json_loads str_of_json
           "GET" "/premium/users/7/subscription" None
           (None : option (Type_ gdz.Book))
           false false true true false
           {| kw_params := None; kw_json := None |} example_world) =
    Returns (RText (text response_json_array)).
Proof. split; reflexivity. Qed.

(** ** Query parameters: what [init_params] does print *)

Lemma setitem_fresh (k : string) (v : pyval) (d : dict) :
  k ∉ Py.keys d → setitem k v d = (d ++ [(k, v)])%list.
Proof.
  induction d as [|[k' v'] d IH]; simpl; [done|].
  rewrite not_elem_of_cons. intros [Hne Hnotin].
  destruct (String.eqb k' k) eqn:E.
  - apply String.eqb_eq in E. by destruct Hne.
  - by rewrite IH.
Qed.

Lemma dict_comprehension_fold (f : pyval -> pyval) (items acc : dict) :
  NoDup (Py.keys acc ++ Py.keys items) →
  fold_left (fun acc kv => setitem (fst kv) (f (snd kv)) acc) items acc =
    (acc ++ map (fun kv => (fst kv, f (snd kv))) items)%list.
Proof.
  revert acc. induction items as [|[k v] items IH]; intros acc Hnd; simpl.
  - by rewrite app_nil_r.
  - rewrite setitem_fresh.
    + rewrite IH.
      * by rewrite <- app_assoc.
      * unfold Py.keys in *. rewrite map_app. simpl.
        rewrite <- app_assoc. exact Hnd.
    + apply NoDup_app in Hnd as (_ & Hdisj & _).
      intros Hin. apply (Hdisj k Hin). simpl. left.
Qed.

Lemma dict_comprehension_NoDup (f : pyval -> pyval) (items : dict) :
  NoDup (Py.keys items) →
  dict_comprehension f items = map (fun kv => (fst kv, f (snd kv))) items.
Proof. intros Hnd. unfold dict_comprehension. by rewrite dict_comprehension_fold. Qed.

Lemma str_init_params_value (v : pyval) :
  Py.str (init_params_value v) = rendered v.
Proof. by destruct v as [|[]| | | |]. Qed.

(** With the keys of a dictionary (no key twice), a non-empty mapping
    gives [url?k1=v1&...&kn=vn] in insertion order, a string or a number
    printed as it is, [None] as [null], a boolean as [True] or [False]. *)
Lemma init_params_nonempty (url : string) (params : dict) :
  NoDup (Py.keys params) → params ≠ [] →
  init_params url params =
    url +:+ "?" +:+
    String.concat "&" (map (fun kv => fst kv +:+ "=" +:+ rendered (snd kv)) params).
Proof.
  intros Hnd Hne. unfold init_params.
  destruct params as [|kv params]; [done|]. cbn [Py.truthy].
  rewrite dict_comprehension_NoDup by done. rewrite map_map.
  do 3 f_equal. apply map_ext. intros [k v]. simpl.
  by rewrite str_init_params_value.
Qed.

Lemma init_params_empty (url : string) : init_params url [] = url.
Proof. reflexivity. Qed.

(** C2.  [init_params] prints a boolean parameter as [True] or [False]:
    a boolean is an instance of [int], so the first test of the value
    expression keeps it as it is and the table [boolean] is never
    consulted. *)
Theorem init_params_boolean :
  init_params "/premium/gdz/books/search"
    [("exact", PyBool true); ("archived", PyBool false)] =
    "/premium/gdz/books/search?exact=True&archived=False"
  ∧ (∀ b, init_params_value (PyBool b) = PyBool b)
  ∧ (∀ b, Py.str (init_params_value (PyBool b)) ≠ boolean b).
Proof.
  split_and!.
  - reflexivity.
  - by intros [].
  - by intros [].
Qed.

(** * Further properties of the client *)

(** ** Query strings *)

(** X1.  For a dictionary of parameters (no key twice), [init_params]
    returns the path itself when there is no parameter, and otherwise the
    path, a question mark and one [key=value] per parameter, in insertion
    order, joined by [&]; a value is printed by [rendered]. *)
Theorem init_params_query_string (url : string) (params : dict) :
  NoDup (Py.keys params) →
  init_params url params =
    match params with
    | [] => url
    | _ =>
        url +:+ "?" +:+
        String.concat "&"
          (map (fun kv => fst kv +:+ "=" +:+ rendered (snd kv)) params)
    end.
Proof.
  intros Hnd. destruct params as [|kv params]; [reflexivity|].
  by apply init_params_nonempty.
Qed.

Lemma init_params_query_string_witness :
  init_params "/premium/gdz/books/search"
    [("user_id", PyStr "42"); ("book_id", PyInt 7); ("subject_name", PyNone)] =
  "/premium/gdz/books/search?user_id=42&book_id=7&subject_name=null".
Proof.
  refine (init_params_query_string "/premium/gdz/books/search"
    [("user_id", PyStr "42"); ("book_id", PyInt 7); ("subject_name", PyNone)] _).
  repeat constructor; rewrite ?elem_of_cons, ?elem_of_nil; intros H;
    repeat (destruct H as [H|H]; [discriminate H|]); done.
Defined.

(** ** The constructor *)

Lemma append_empty_l (s : string) : EmptyString +:+ s = s.
Proof. reflexivity. Qed.

Lemma append_String (a : ascii) (r s : string) :
  String a r +:+ s = String a (r +:+ s).
Proof. reflexivity. Qed.

Lemma rstrip_slashes (s : string) :
  ∃ n, s = rstrip "/" s +:+ slashes n.
Proof.
  induction s as [|a s [n IH]]; [by exists 0%nat|]. cbn [rstrip].
  destruct (rstrip "/" s) as [|b r] eqn:E.
  - rewrite append_empty_l in IH. destruct (Ascii.eqb a "/") eqn:Ea.
    + apply Ascii.eqb_eq in Ea as ->. exists (S n).
      rewrite append_empty_l. cbn [slashes]. by rewrite <- IH.
    + exists n. rewrite append_String, append_empty_l. by rewrite <- IH.
  - exists n. rewrite append_String. by rewrite <- IH.
Qed.

Lemma rstrip_no_trailing_slash (s : string) :
  ends_with "/" (rstrip "/" s) = false.
Proof.
  induction s as [|a s IH]; [done|]. simpl.
  destruct (rstrip "/" s) as [|b r] eqn:E.
  - destruct (Ascii.eqb a "/") eqn:Ea; [done|]. simpl. exact Ea.
  - exact IH.
Qed.

Lemma rstrip_String (c a : ascii) (s : string) :
  rstrip c (String a s) =
    match rstrip c s with
    | EmptyString => if Ascii.eqb a c then EmptyString else String a EmptyString
    | r => String a r
    end.
Proof. reflexivity. Qed.

Lemma rstrip_fixed (s : string) :
  ends_with "/" s = false → rstrip "/" s = s.
Proof.
  induction s as [|a s IH]; [done|]. intros H. rewrite rstrip_String.
  destruct s as [|b s'].
  - simpl in *. by rewrite H.
  - change (ends_with "/" (String b s') = false) in H. by rewrite (IH H).
Qed.

(** X2.  The client keeps the base URL with every trailing slash removed
    and nothing else changed: the given URL is the kept one followed by
    slashes only, the kept one does not end in a slash, and a URL that does
    not end in a slash is kept as it is.  A new client has no session. *)
Theorem init_strips_trailing_slashes (tok url : string) :
  (∃ n, url = base_url (__init__ tok url) +:+ slashes n)
  ∧ ends_with "/" (base_url (__init__ tok url)) = false
  ∧ (ends_with "/" url = false → base_url (__init__ tok url) = url)
  ∧ token (__init__ tok url) = tok
  ∧ session (__init__ tok url) = None.
Proof.
  split_and!; simpl.
  - apply rstrip_slashes.
  - apply rstrip_no_trailing_slash.
  - apply rstrip_fixed.
  - done.
  - done.
Qed.

Lemma init_strips_trailing_slashes_witness :
  base_url (__init__ "secret" "https://learnify.mag329.tech/api/v1") =
    "https://learnify.mag329.tech/api/v1"
  ∧ ∃ n, "https://learnify.mag329.tech/api/v1//" =
         base_url (__init__ "secret" "https://learnify.mag329.tech/api/v1//")
         +:+ slashes n.
Proof.
  split.
  - apply (init_strips_trailing_slashes "secret"
             "https://learnify.mag329.tech/api/v1"). reflexivity.
  - apply (init_strips_trailing_slashes "secret"
             "https://learnify.mag329.tech/api/v1//").
Defined.

(** ** Status checking *)

(** X3.  Every way [_check_response] can end.  It returns only for a
    status below 400 or for a JSON body that is not an object.  It raises
    only for a status of 400 or more: an [APIError] with the status and the
    [description] of the JSON object (any JSON value; the [str] of the whole
    object when the key is missing), or, when reading the JSON failed,
    [UnboundLocalError] for the two exceptions its handler names and the
    exception itself for any other. *)
Theorem check_response_cases (str_of_json : json -> string)
    (response : ClientResponse) :
  match _check_response str_of_json response with
  | Returns _ =>
      status response < 400
      ∨ ∃ value, json_result response = Returns value
                 ∧ ∀ fields, value ≠ JObj fields
  | Raises e =>
      400 <= status response
      ∧ ((∃ fields, json_result response = Returns (JObj fields)
            ∧ e = APIError (status response)
                    (default (JStr (str_of_json (JObj fields)))
                       (json_get "description" fields)))
         ∨ (∃ e0, json_result response = Raises e0
              ∧ e = if caught e0 then UnboundLocalError "json_response"
                    else e0))
  end.
Proof.
  unfold _check_response, check_response_try.
  destruct (400 <=? status response) eqn:Hs.
  - apply Z.leb_le in Hs.
    destruct (json_result response) as [value|e0].
    + destruct value; simpl;
        try (right; eexists; split; [reflexivity|intros ?; discriminate]).
      split; [done|]. left. by eexists.
    + destruct (caught e0) eqn:Hc; simpl; (split; [done|]);
        right; exists e0; by rewrite Hc.
  - apply Z.leb_gt in Hs. left. lia.
Qed.

(** ** Headers *)

Lemma clean_value_str (v v' : pyval) :
  clean_value v = Some v' → ∃ s, v' = PyStr s.
Proof. destruct v; simpl; intros H; simplify_eq; by eexists. Qed.

Lemma clean_value_idempotent (v : pyval) :
  clean_value v ≫= clean_value = clean_value v.
Proof. by destruct v. Qed.

Lemma HEADERS_all_str : all_str HEADERS.
Proof.
  unfold all_str, HEADERS.
  repeat (apply map_Forall_insert_2; [by eexists|]).
  apply map_Forall_empty.
Qed.

Lemma auth_headers_all_str (tok : string) (require_token : bool) :
  all_str (if require_token
           then <["Authorization" := PyStr ("Bearer " +:+ tok)]> HEADERS
           else HEADERS).
Proof.
  destruct require_token; [|apply HEADERS_all_str].
  apply map_Forall_insert_2; [by eexists|apply HEADERS_all_str].
Qed.

Lemma omap_clean_all_str (d : gmap string pyval) : all_str (omap clean_value d).
Proof.
  intros k v. rewrite lookup_omap.
  destruct (d !! k) as [x|]; simpl; [|done]. apply clean_value_str.
Qed.

(** X4.  Whatever the caller puts into [custom_headers], every value of
    the dictionary that [headers] returns is a string, and so is every
    value left in the caller's own dictionary after the call. *)
Theorem headers_values_are_strings (require_token : bool)
    (custom_headers : option nat) (w : World) :
  (∀ H, fst (headers require_token custom_headers w) = Returns H → all_str H)
  ∧ all_str (custom_of custom_headers
               (snd (headers require_token custom_headers w))).
Proof.
  rewrite headers_unfold. simpl. split.
  - intros H HH.
    destruct (negb (str_truthy (token (client w))) && require_token); [done|].
    injection HH as <-. intros k v Hk.
    apply lookup_union_Some_raw in Hk as [Hk|[_ Hk]].
    + exact (omap_clean_all_str _ k v Hk).
    + exact (auth_headers_all_str (token (client w)) require_token k v Hk).
  - rewrite custom_after_headers. apply omap_clean_all_str.
Qed.

Lemma headers_values_are_strings_witness :
  ∃ H, fst (headers true (Some 0%nat) example_world) = Returns H
       ∧ all_str H
       ∧ all_str (heap (snd (headers true (Some 0%nat) example_world)) !!! 0%nat).
Proof.
  destruct (headers_values_are_strings true (Some 0%nat) example_world)
    as [Hret Hown].
  eexists. split; [reflexivity|]. split.
  - apply Hret. reflexivity.
  - exact Hown.
Defined.

Lemma world_after_headers_twice (custom_headers : option nat) (w : World) :
  world_after_headers custom_headers (world_after_headers custom_headers w) =
  world_after_headers custom_headers w.
Proof.
  destruct custom_headers as [l|]; simpl; [|done].
  destruct (map_truthy (heap w !!! l)) eqn:Ht; simpl; [|by rewrite Ht].
  rewrite lookup_total_insert_eq.
  destruct (map_truthy (headers_clean (heap w !!! l))); [|done].
  f_equal. rewrite insert_insert_eq. f_equal.
  rewrite !headers_clean_omap. apply map_eq. intros k.
  rewrite !lookup_omap. destruct ((heap w !!! l) !! k) as [v|]; simpl; [|done].
  apply clean_value_idempotent.
Qed.

(** X5.  Building the headers a second time from the same arguments
    changes nothing further and gives the same answer: the dictionary of
    the caller is edited by the first call only. *)
Theorem headers_twice (require_token : bool) (custom_headers : option nat)
    (w : World) :
  headers require_token custom_headers
    (snd (headers require_token custom_headers w)) =
  (fst (headers require_token custom_headers w),
   snd (headers require_token custom_headers w)).
Proof.
  rewrite (headers_unfold require_token custom_headers w). simpl.
  rewrite headers_unfold, world_after_headers_twice.
  destruct (world_after_headers_frame custom_headers w) as [-> _].
  rewrite custom_after_headers.
  f_equal.
  destruct (negb (str_truthy (token (client w))) && require_token); [done|].
  do 2 f_equal. apply map_eq. intros k. rewrite !lookup_omap.
  destruct (custom_of custom_headers w !! k) as [v|]; simpl; [|done].
  apply clean_value_idempotent.
Qed.

(** ** Requests *)

Lemma token_guard_fails (tok : string) (required_token : bool) :
  required_token = true → tok = EmptyString →
  negb (str_truthy tok) && required_token = true.
Proof. by intros -> ->. Qed.

(** X6.  What one [request] may change.  The client is left as it was.
    The log of dispatched calls grows by exactly one call, the one built
    from the arguments, when the session is active and the token guard
    passes, and is left as it was otherwise.  No header dictionary other
    than the one passed as [custom_headers] is touched, and without a
    session nothing at all is changed. *)
Theorem request_frame (server : HttpCall -> ClientResponse)
    (json_loads : string -> option json) (str_of_json : json -> string)
    (A : Type) (method path : string) (custom_headers : option nat)
    (model : option (Type_ A))
    (is_list return_json return_raw_text required_token return_raw_response : bool)
    (kw : kwargs) (w : World) :
  let w' :=
    snd (request server json_loads str_of_json method path custom_headers
           model is_list return_json return_raw_text required_token
           return_raw_response kw w) in
  let call := request_call method path custom_headers required_token kw w in
  client w' = client w
  ∧ (is_Some (session (client w)) →
     (required_token = true → token (client w) ≠ EmptyString) →
     sent w' = (sent w ++ [call])%list)
  ∧ (session (client w) = None
     ∨ (required_token = true ∧ token (client w) = EmptyString) →
     sent w' = sent w)
  ∧ (∀ l, custom_headers ≠ Some l → heap w' !!! l = heap w !!! l)
  ∧ (session (client w) = None → w' = w).
Proof.
  intros w' call. subst w'. rewrite request_unfold.
  destruct (world_after_headers_frame custom_headers w) as [Hc Hs].
  assert (Hheap : ∀ l, custom_headers ≠ Some l →
            heap (world_after_headers custom_headers w) !!! l = heap w !!! l).
  { intros l Hl. destruct custom_headers as [l0|]; simpl; [|done].
    destruct (map_truthy (heap w !!! l0)); [|done]. simpl.
    apply lookup_total_insert_ne. congruence. }
  destruct (session (client w)) as [s|] eqn:Hsess.
  - destruct (negb (str_truthy (token (client w))) && required_token) eqn:Hg;
      simpl.
    + split_and!; try done.
      intros _ Htok. pose proof (token_guard_passes _ _ Htok). congruence.
    + split_and!; try done.
      * unfold world_after_call. simpl. fold call. by rewrite Hs.
      * intros [?|[Hr Ht]]; [done|].
        pose proof (token_guard_fails _ _ Hr Ht). congruence.
  - simpl. split_and!; done.
Qed.

Lemma request_frame_witness :
  sent (snd (request server_no_content ExampleJson.loads ExampleJson.str_of
               "DELETE" "/premium/users/7" (Some 0%nat)
               (None : option (Type_ gdz.Book))
               false false false true false no_kwargs example_world)) =
    [request_call "DELETE" "/premium/users/7" (Some 0%nat) true no_kwargs
       example_world].
Proof.
  apply (request_frame server_no_content ExampleJson.loads ExampleJson.str_of
           gdz.Book "DELETE" "/premium/users/7" (Some 0%nat) None
           false false false true false no_kwargs example_world).
  - by eexists.
  - intros _. discriminate.
Defined.

(** X7.  A response with a status of 400 or more whose JSON body is an
    object makes [request] raise [APIError] with that status and the
    [description] of the object (the [str] of the object when it has none),
    for every combination of the decode flags, the raw-response one
    included; the call has been dispatched all the same. *)
Theorem request_error_status (server : HttpCall -> ClientResponse)
    (json_loads : string -> option json) (str_of_json : json -> string)
    (A : Type) (method path : string) (custom_headers : option nat)
    (model : option (Type_ A))
    (is_list return_json return_raw_text required_token return_raw_response : bool)
    (kw : kwargs) (w : World) (fields : list (string * json)) :
  is_Some (session (client w)) →
  (required_token = true → token (client w) ≠ EmptyString) →
  let call := request_call method path custom_headers required_token kw w in
  400 <= status (server call) →
  json_result (server call) = Returns (JObj fields) →
  request server json_loads str_of_json method path custom_headers model
    is_list return_json return_raw_text required_token return_raw_response kw w =
  (Raises (APIError (status (server call))
             (default (JStr (str_of_json (JObj fields)))
                (json_get "description" fields))),
   world_after_call custom_headers call w).
Proof.
  intros [s Hs] Htok call Hstatus Hjson.
  rewrite request_unfold, Hs, (token_guard_passes _ _ Htok). cbv zeta.
  fold call. f_equal.
  unfold handle_response, _check_response, check_response_try.
  apply Z.leb_le in Hstatus. by rewrite Hstatus, Hjson.
Qed.

Lemma request_error_status_witness :
  fst (request
         (server_json 404 (jobject [jfield "description" (jstr "not found")]))
         ExampleJson.loads ExampleJson.str_of
         "GET" "/premium/users/7" None (Some BookSchema.Book)
         false false false true true no_kwargs example_world) =
  Raises (APIError 404 (JStr "not found")).
Proof.
  refine (f_equal fst
    (request_error_status
       (server_json 404 (jobject [jfield "description" (jstr "not found")]))
       ExampleJson.loads ExampleJson.str_of gdz.Book
       "GET" "/premium/users/7" None (Some BookSchema.Book)
       false false false true true no_kwargs example_world
       [("description", JStr "not found")] _ _ _ _)).
  - by eexists.
  - intros _. discriminate.
  - by vm_compute.
  - reflexivity.
Defined.



(** ** Timestamps *)

Lemma forallb_seqZ (f : Z -> bool) (start len n : Z) :
  forallb f (seqZ start len) = true → start <= n < start + len → f n = true.
Proof.
  intros Hall Hn. rewrite forallb_forall in Hall. apply Hall.
  by apply list_elem_of_In, elem_of_seqZ.
Qed.

Lemma pretty_four_digits (n : Z) :
  1000 <= n < 10000 → zfill 4 (pretty n) = pretty n.
Proof.
  intros Hn. apply String.eqb_eq.
  apply (forallb_seqZ pretty_has_four_digits 1000 9000); [|lia].
  vm_compute. reflexivity.
Qed.

Lemma pretty_short (n : Z) :
  0 <= n < 1000 → (String.length (pretty n) < 4)%nat.
Proof.
  intros Hn. apply Nat.ltb_lt.
  apply (forallb_seqZ pretty_is_short 0 1000); [|lia].
  vm_compute. reflexivity.
Qed.

Lemma length_append (s1 s2 : string) :
  String.length (s1 +:+ s2) = (String.length s1 + String.length s2)%nat.
Proof.
  induction s1 as [|a s1 IH]; [done|].
  rewrite append_String. simpl. by rewrite IH.
Qed.

Lemma append_assoc (s1 s2 s3 : string) :
  (s1 +:+ s2) +:+ s3 = s1 +:+ (s2 +:+ s3).
Proof.
  induction s1 as [|a s1 IH]; [done|].
  rewrite !append_String. by rewrite IH.
Qed.

Lemma format_02_fixed_width (n : Z) :
  0 <= n < 100 → format_02 n = fixed_width 2 n.
Proof. apply zfill_fixed_width_2. Qed.

Lemma date_to_string_fixed_width (now : date * (Z * Z * Z)) (x : date_like) :
  date_valid (date_of x) →
  date_to_string now (Some x) =
    pretty (year (date_of x)) +:+ "-" +:+ fixed_width 2 (month (date_of x))
    +:+ "-" +:+ fixed_width 2 (day (date_of x)).
Proof.
  intros (Hy & Hm & Hd).
  pose proof (days_in_month_le (year (date_of x)) (month (date_of x))).
  unfold date_to_string. by rewrite !format_02_fixed_width by lia.
Qed.

(** X9.  [date_to_string] prints the year as it is and the month and the
    day on two digits.  For a date of the calendar it gives what
    [isoformat] gives whenever the year has four digits; for a year below
    1000 it is shorter than the ten characters of [isoformat], the year not
    being padded.  The time of day of a [datetime] is ignored. *)
Theorem date_to_string_format (now : date * (Z * Z * Z)) (d : date) :
  date_valid d →
  date_to_string now (Some (a_date d)) =
    pretty (year d) +:+ "-" +:+ fixed_width 2 (month d) +:+ "-" +:+
    fixed_width 2 (day d)
  ∧ (1000 <= year d → date_to_string now (Some (a_date d)) = isoformat d)
  ∧ (year d < 1000 →
       (String.length (date_to_string now (Some (a_date d))) < 10)%nat
       ∧ String.length (isoformat d) = 10%nat)
  ∧ (∀ hour minute second,
       date_to_string now (Some (a_datetime d hour minute second)) =
       date_to_string now (Some (a_date d))).
Proof.
  intros Hvalid.
  pose proof (date_to_string_fixed_width now (a_date d) Hvalid) as Hfw.
  simpl in Hfw. destruct Hvalid as (Hy & Hm & Hd).
  split_and!.
  - exact Hfw.
  - intros Hbig. unfold date_to_string, isoformat, format_02. simpl.
    by rewrite pretty_four_digits by lia.
  - intros Hsmall. split.
    + rewrite Hfw, length_append.
      pose proof (pretty_short (year d) ltac:(lia)).
      match goal with
      | |- (_ + String.length ?t < _)%nat => change (String.length t) with 6%nat
      end.
      lia.
    + rewrite isoformat_fixed_width by done. reflexivity.
  - reflexivity.
Qed.

Lemma date_to_string_format_witness :
  date_to_string example_now (Some (a_date example_date)) = "2024-03-07"
  ∧ (String.length
       (date_to_string example_now
          (Some (a_date {| year := 987; month := 3; day := 7 |}))) < 10)%nat.
Proof.
  split.
  - refine (proj1 (date_to_string_format example_now example_date _)).
    repeat split; by vm_compute.
  - refine (proj1 (proj1 (proj2 (proj2
      (date_to_string_format example_now
         {| year := 987; month := 3; day := 7 |} _))) _)).
    + repeat split; by vm_compute.
    + reflexivity.
Defined.

(** X10.  For a [datetime] of the calendar, [datetime_to_string] is what
    [date_to_string] gives for its date, then [T], then hour, minute and
    second on two digits each, separated by colons; for a plain date it is
    what [date_to_string] gives.  Without an argument both helpers print
    the reading of the clock. *)
Theorem datetime_to_string_format (now : date * (Z * Z * Z)) (d : date)
    (hour minute second : Z) :
  date_valid d → time_valid hour minute second →
  datetime_to_string now (Some (a_datetime d hour minute second)) =
    date_to_string now (Some (a_date d)) +:+ "T" +:+ fixed_width 2 hour
    +:+ ":" +:+ fixed_width 2 minute +:+ ":" +:+ fixed_width 2 second
  ∧ datetime_to_string now (Some (a_date d)) =
    date_to_string now (Some (a_date d))
  ∧ datetime_to_string now None = datetime_to_string now (Some (datetime_now now))
  ∧ date_to_string now None = date_to_string now (Some (datetime_now now)).
Proof.
  intros Hvalid (Hh & Hm & Hs). split_and!; try reflexivity.
  unfold datetime_to_string, date_to_string. simpl.
  rewrite !(format_02_fixed_width hour), !(format_02_fixed_width minute),
    !(format_02_fixed_width second) by lia.
  by rewrite !append_assoc.
Qed.

Lemma datetime_to_string_format_witness :
  datetime_to_string example_now (Some (a_datetime example_date 9 5 0)) =
    "2024-03-07T09:05:00".
Proof.
  refine (proj1 (datetime_to_string_format example_now example_date 9 5 0 _ _)).
  - repeat split; by vm_compute.
  - repeat split; by vm_compute.
Defined.

(** ** List decoding *)

(** X11.  Every way [parse_list_models] can end, for any schema or none.
    It returns [None] for the JSON value [null] and, for an array, a list
    with one decoded item per element, in order.  It raises nothing but a
    validation error, and does so exactly when the text is not JSON, when
    the JSON value is neither [null] nor an array, or when some element of
    the array is rejected. *)
Theorem parse_list_models_cases (json_loads : string -> option json)
    (A : Type) (model : option (Type_ A)) (response : string) :
  match parse_list_models json_loads model response with
  | Returns root =>
      (json_loads response = Some JNull ∧ root = RNone)
      ∨ (∃ items objs,
           json_loads response = Some (JArr items) ∧ root = RList objs
           ∧ Forall2 (λ item obj, validate_item model item = Some obj)
               items objs)
  | Raises e =>
      e = ValidationError
      ∧ (json_loads response = None
         ∨ (∃ value, json_loads response = Some value ∧ value ≠ JNull
              ∧ ∀ items, value ≠ JArr items)
         ∨ (∃ items item, json_loads response = Some (JArr items)
              ∧ item ∈ items ∧ validate_item model item = None))
  end.
Proof.
  unfold parse_list_models.
  destruct (json_loads response) as [value|]; [|by split; [|left]].
  destruct value; simpl;
    try (split; [done|]; right; left; eexists; split; [done|];
         split; [discriminate|intros ?; discriminate]).
  - by left.
  - destruct (mapM (validate_item model) items) as [objs|] eqn:E; simpl.
    + right. exists items, objs. split; [done|]. split; [done|].
      by apply mapM_Some.
    + split; [done|]. right. right.
      apply mapM_None in E. apply Exists_exists in E as (item & Hin & Hnone).
      by exists items, item.
Qed.

(** ** Resource operations *)

Lemma append_empty_r (s : string) : s +:+ EmptyString = s.
Proof.
  induction s as [|a s IH]; [done|]. rewrite append_String. by rewrite IH.
Qed.

Lemma init_params_prefix (url : string) (params : dict) :
  ∃ suffix, init_params url params = url +:+ suffix.
Proof.
  unfold init_params. destruct (Py.truthy params).
  - by eexists.
  - exists EmptyString. by rewrite append_empty_r.
Qed.

Lemma request_call_headers_None (method path : string) (kw : kwargs) (w : World) :
  call_headers (request_call method path None true kw w) =
  auth_headers (token (client w)).
Proof.
  unfold request_call, auth_headers. simpl.
  by rewrite omap_empty, (left_id_L ∅ (∪)).
Qed.

Lemma request_call_url_premium (method rest : string)
    (custom_headers : option nat) (required_token : bool) (kw : kwargs)
    (w : World) :
  ∃ r, call_url (request_call method ("/premium/" +:+ rest) custom_headers
                   required_token kw w) =
       base_url (client w) +:+ "/premium/" +:+ r.
Proof.
  unfold request_call. simpl.
  destruct (init_params_prefix (base_url (client w) +:+ "/premium/" +:+ rest)
              (default [] (kw_params kw))) as [suffix ->].
  exists (rest +:+ suffix). by rewrite !append_assoc.
Qed.

(** What a call of [request] with no custom headers and auth required
    leaves behind. *)
Lemma request_authenticated (server : HttpCall -> ClientResponse)
    (json_loads : string -> option json) (str_of_json : json -> string)
    {A} (method rest : string) (model : option (Type_ A))
    (is_list return_json return_raw_text return_raw_response : bool)
    (kw : kwargs) (w : World) :
  let w' :=
    snd (request server json_loads str_of_json method ("/premium/" +:+ rest)
           None model is_list return_json return_raw_text true
           return_raw_response kw w) in
  client w' = client w ∧ heap w' = heap w
  ∧ (sent w' = sent w
     ∨ ∃ call, sent w' = (sent w ++ [call])%list
         ∧ call_headers call = auth_headers (token (client w))
         ∧ call_method call = method
         ∧ is_Some (session (client w))
         ∧ token (client w) ≠ EmptyString
         ∧ ∃ r, call_url call = base_url (client w) +:+ "/premium/" +:+ r).
Proof.
  intros w'. subst w'. rewrite request_unfold.
  destruct (session (client w)) as [s|] eqn:Hs; [|by split_and!; [..|left]].
  destruct (negb (str_truthy (token (client w))) && true) eqn:Hg;
    [by split_and!; [..|left]|].
  simpl. split_and!; [done|done|]. right.
  eexists. split; [reflexivity|].
  split; [apply request_call_headers_None|]. split; [done|].
  split; [by eexists|]. split.
  - intros Ht. by rewrite Ht in Hg.
  - apply request_call_url_premium.
Qed.

Lemma snd_bind_ret {A B} (m : M A) (b : B) (w : World) :
  snd (bind m (fun _ => ret b) w) = snd (m w).
Proof. unfold bind, ret. by destruct (m w) as [[a|e] w']. Qed.

(** X12.  Whatever operation of the client is called, with whatever
    arguments and in whatever world: the client and the header
    dictionaries are left as they were, and at most one call is
    dispatched.  A call is dispatched only with an active session and a
    non-empty token; it carries the five base headers and
    [Authorization: Bearer <token>] and nothing else, and its URL is the
    base URL of the client followed by a path under [/premium/]. *)
Theorem operations_authenticate (server : HttpCall -> ClientResponse)
    (json_loads : string -> option json) (str_of_json : json -> string)
    (DT : Type) (User : Type_ (user.User DT)) (Book : Type_ gdz.Book)
    (GdzAnswer : Type_ gdz_answer.GdzAnswer) (op : operation) (w : World) :
  let w' := world_after server json_loads str_of_json op w in
  client w' = client w ∧ heap w' = heap w
  ∧ (sent w' = sent w
     ∨ ∃ call, sent w' = (sent w ++ [call])%list
         ∧ call_headers call = auth_headers (token (client w))
         ∧ is_Some (session (client w))
         ∧ token (client w) ≠ EmptyString
         ∧ ∃ r, call_url call = base_url (client w) +:+ "/premium/" +:+ r).
Proof.
  intros w'. subst w'.
  assert (Hweaken : ∀ (A : Type) (method rest : string)
            (model : option (Type_ A)) (il rj rt rr : bool) (kw : kwargs),
    let w' := snd (request server json_loads str_of_json method
                     ("/premium/" +:+ rest) None model il rj rt true rr kw w) in
    client w' = client w ∧ heap w' = heap w
    ∧ (sent w' = sent w
       ∨ ∃ call, sent w' = (sent w ++ [call])%list
           ∧ call_headers call = auth_headers (token (client w))
           ∧ is_Some (session (client w))
           ∧ token (client w) ≠ EmptyString
           ∧ ∃ r, call_url call = base_url (client w) +:+ "/premium/" +:+ r)).
  { intros A method rest model il rj rt rr kw.
    destruct (request_authenticated server json_loads str_of_json method rest
                model il rj rt rr kw w) as (Hc & Hh & [Hs|Hs]).
    - split_and!; [done|done|by left].
    - destruct Hs as (call & ? & ? & _ & ? & ? & ?).
      split_and!; [done|done|]. right. by exists call. }
  destruct op; simpl.
  - exact (Hweaken _ "POST" "users" _ _ _ _ _ _).
  - exact (Hweaken _ "GET" ("users/" +:+ pretty user_id) _ _ _ _ _ _).
  - unfold update_user.
    destruct (negb (Py.truthy (update_user_body expires_at plan_type is_active)));
      [by split_and!; [..|left]|].
    exact (Hweaken _ "PUT" ("users/" +:+ pretty user_id) _ _ _ _ _ _).
  - unfold delete_user. rewrite snd_bind_ret.
    exact (Hweaken _ "DELETE" ("users/" +:+ pretty user_id) _ _ _ _ _ _).
  - exact (Hweaken _ "POST" ("users/" +:+ pretty user_id +:+ "/subscribe")
             _ _ _ _ _ _).
  - exact (Hweaken _ "POST" ("users/" +:+ pretty user_id +:+ "/unsubscribe")
             _ _ _ _ _ _).
  - exact (Hweaken _ "GET" ("users/" +:+ pretty user_id +:+ "/subscription")
             _ _ _ _ _ _).
  - exact (Hweaken _ "POST" "gdz/books" _ _ _ _ _ _).
  - exact (Hweaken _ "GET" ("gdz/book/" +:+ pretty book_id) _ _ _ _ _ _).
  - exact (Hweaken _ "GET" "gdz/books/search" _ _ _ _ _ _).
  - unfold update_book.
    destruct (negb (Py.truthy
                (update_book_body url subject_id subject_name search_by)));
      [by split_and!; [..|left]|].
    exact (Hweaken _ "PUT" ("gdz/books/" +:+ pretty book_id) _ _ _ _ _ _).
  - unfold delete_book. rewrite snd_bind_ret.
    exact (Hweaken _ "DELETE" ("gdz/books/" +:+ pretty book_id) _ _ _ _ _ _).
  - exact (Hweaken _ "GET" "gdz/books/gdz" _ _ _ _ _ _).
Qed.

Lemma truthy_nonempty (d : dict) : d ≠ [] → Py.truthy d = true.
Proof. by destruct d. Qed.

Lemma request_dispatches (server : HttpCall -> ClientResponse)
    (json_loads : string -> option json) (str_of_json : json -> string)
    {A} (method path : string) (model : option (Type_ A))
    (is_list return_json return_raw_text return_raw_response : bool)
    (kw : kwargs) (w : World) :
  is_Some (session (client w)) → token (client w) ≠ EmptyString →
  request server json_loads str_of_json method path None model is_list
    return_json return_raw_text true return_raw_response kw w =
  (handle_response json_loads str_of_json model is_list return_json
     return_raw_text return_raw_response
     (server (request_call method path None true kw w)),
   {| client := client w;
      sent := sent w ++ [request_call method path None true kw w];
      heap := heap w |}).
Proof.
  intros [s Hs] Htok.
  by rewrite request_unfold, Hs, (token_guard_passes _ true (λ _, Htok)).
Qed.

(** X13.  [update_user] sends exactly the fields it is given: the body is
    empty only when the three of them are absent (so [is_active=False]
    alone is an update), each given field is in the body under its name,
    [expires_at] as what its [isoformat] method returns (for a [datetime]
    the date text, [T] and the time of day), and there is no other key and
    no key twice.  With a
    non-empty body, an active session and a token, one [PUT] goes to the
    URL of the user with that body. *)
Theorem update_user_fields (server : HttpCall -> ClientResponse)
    (json_loads : string -> option json) (str_of_json : json -> string)
    (DT : Type) (User : Type_ (user.User DT))
    (user_id : Z) (expires_at : option date_instance)
    (plan_type : option string) (is_active : option bool) (w : World) :
  let body := update_user_body expires_at plan_type is_active in
  let call :=
    request_call "PUT" ("/premium/users/" +:+ pretty user_id) None true
      {| kw_params := None; kw_json := Some body |} w in
  (body = [] ↔ expires_at = None ∧ plan_type = None ∧ is_active = None)
  ∧ Py.get "expires_at" body =
      (λ x, PyStr (instance_isoformat x)) <$> expires_at
  ∧ Py.get "plan_type" body = PyStr <$> plan_type
  ∧ Py.get "is_active" body = PyBool <$> is_active
  ∧ (∀ k, k ∈ Py.keys body →
       k = "expires_at" ∨ k = "plan_type" ∨ k = "is_active")
  ∧ NoDup (Py.keys body)
  ∧ (∀ d hour minute second microsecond utcoffset,
       expires_at =
         Some (full_datetime d hour minute second microsecond utcoffset) →
       date_valid d → time_valid hour minute second →
       Py.get "expires_at" body =
         Some (PyStr
           ((fixed_width 4 (year d) +:+ "-" +:+ fixed_width 2 (month d)
             +:+ "-" +:+ fixed_width 2 (day d))
            +:+ "T" +:+ fixed_width 2 hour +:+ ":" +:+ fixed_width 2 minute
            +:+ ":" +:+ fixed_width 2 second +:+ format_fraction microsecond
            +:+ format_offset utcoffset)))
  ∧ (body ≠ [] → is_Some (session (client w)) →
     token (client w) ≠ EmptyString →
     sent (snd (update_user server json_loads str_of_json user_id expires_at
                  plan_type is_active w)) = (sent w ++ [call])%list
     ∧ call_url call = base_url (client w) +:+ "/premium/users/"
                       +:+ pretty user_id
     ∧ call_json call = Some body).
Proof.
  intros body call. split_and!.
  - subst body. destruct expires_at, plan_type, is_active; cbn;
      split; try done; intros (? & ? & ?); done.
  - subst body. by destruct expires_at, plan_type, is_active.
  - subst body. by destruct expires_at, plan_type, is_active.
  - subst body. by destruct expires_at, plan_type, is_active.
  - subst body. intros k.
    destruct expires_at, plan_type, is_active; cbn;
      rewrite ?elem_of_cons, elem_of_nil; intros H;
      repeat (destruct H as [->|H]; [by auto|]); done.
  - subst body.
    destruct expires_at, plan_type, is_active; cbn;
      repeat constructor; rewrite ?elem_of_cons, ?elem_of_nil; intros H;
      repeat (destruct H as [H|H]; [discriminate H|]); done.
  - intros d hour minute second microsecond utcoffset -> Hvalid Htime.
    rewrite <- (instance_isoformat_datetime d hour minute second microsecond
                  utcoffset Hvalid Htime).
    subst body. by destruct plan_type, is_active.
  - intros Hne Hs Htok. split_and!; [|reflexivity|reflexivity].
    unfold update_user. fold body. rewrite (truthy_nonempty body Hne). simpl.
    by rewrite (request_dispatches _ _ _ _ _ _ _ _ _ _ _ _ Hs Htok).
Qed.

Lemma update_user_fields_witness :
  sent (snd (update_user server_no_content ExampleJson.loads ExampleJson.str_of
               (User := no_User) 7 None None (Some false) example_world)) =
  [request_call "PUT" "/premium/users/7" None true
     {| kw_params := None; kw_json := Some [("is_active", PyBool false)] |}
     example_world].
Proof.
  destruct (update_user_fields server_no_content ExampleJson.loads
              ExampleJson.str_of unit no_User 7 None None (Some false)
              example_world) as (_ & _ & _ & _ & _ & _ & _ & Hsent).
  apply Hsent; [discriminate|by eexists|discriminate].
Defined.

(** X14.  [update_book] sends exactly the fields it is given: the body
    is empty only when the four of them are absent, each given field is in
    it under its name, every key of the body is the name of a given field,
    and no key is there twice.  With a non-empty
    body, an active session and a token, one [PUT] goes to the URL of the
    book, with the user as the only query parameter. *)
Theorem update_book_fields (server : HttpCall -> ClientResponse)
    (json_loads : string -> option json) (str_of_json : json -> string)
    (Book : Type_ gdz.Book)
    (user_id book_id : Z) (url : option string) (subject_id : option Z)
    (subject_name search_by : option string) (w : World) :
  let body := update_book_body url subject_id subject_name search_by in
  let call :=
    request_call "PUT" ("/premium/gdz/books/" +:+ pretty book_id) None true
      {| kw_params := Some [("user_id", PyInt user_id)];
         kw_json := Some body |} w in
  (body = [] ↔ url = None ∧ subject_id = None ∧ subject_name = None
               ∧ search_by = None)
  ∧ Py.get "url" body = PyStr <$> url
  ∧ Py.get "subject_id" body = PyInt <$> subject_id
  ∧ Py.get "subject_name" body = PyStr <$> subject_name
  ∧ Py.get "search_by" body = PyStr <$> search_by
  ∧ (length body <= 4)%nat
  ∧ (∀ k, k ∈ Py.keys body →
       (k = "url" ∧ is_Some url)
       ∨ (k = "subject_id" ∧ is_Some subject_id)
       ∨ (k = "subject_name" ∧ is_Some subject_name)
       ∨ (k = "search_by" ∧ is_Some search_by))
  ∧ NoDup (Py.keys body)
  ∧ (body ≠ [] → is_Some (session (client w)) →
     token (client w) ≠ EmptyString →
     sent (snd (update_book server json_loads str_of_json user_id book_id url
                  subject_id subject_name search_by w)) = (sent w ++ [call])%list
     ∧ call_url call = base_url (client w) +:+ "/premium/gdz/books/"
                       +:+ pretty book_id +:+ "?user_id=" +:+ pretty user_id
     ∧ call_json call = Some body).
Proof.
  intros body call. split_and!.
  - subst body. destruct url, subject_id, subject_name, search_by; cbn;
      split; try done; intros (? & ? & ? & ?); done.
  - subst body. by destruct url, subject_id, subject_name, search_by.
  - subst body. by destruct url, subject_id, subject_name, search_by.
  - subst body. by destruct url, subject_id, subject_name, search_by.
  - subst body. by destruct url, subject_id, subject_name, search_by.
  - subst body. destruct url, subject_id, subject_name, search_by; cbn; lia.
  - subst body. intros k.
    destruct url, subject_id, subject_name, search_by; cbn;
      rewrite ?elem_of_cons, ?elem_of_nil; intros H;
      repeat (destruct H as [->|H];
              [first [ by left; split; [|eexists]
                     | by right; left; split; [|eexists]
                     | by right; right; left; split; [|eexists]
                     | by right; right; right; split; [|eexists] ]|]);
      done.
  - subst body.
    destruct url, subject_id, subject_name, search_by; cbn;
      repeat constructor; rewrite ?elem_of_cons, ?elem_of_nil; intros H;
      repeat (destruct H as [H|H]; [discriminate H|]); done.
  - intros Hne Hs Htok. split_and!; [| |reflexivity].
    + unfold update_book. fold body. rewrite (truthy_nonempty body Hne). simpl.
      by rewrite (request_dispatches _ _ _ _ _ _ _ _ _ _ _ _ Hs Htok).
    + transitivity ((base_url (client w) +:+ "/premium/gdz/books/"
                     +:+ pretty book_id) +:+ "?user_id=" +:+ pretty user_id);
        [reflexivity|].
      by rewrite !append_assoc.
Qed.

Lemma update_book_fields_witness :
  call_url
    (request_call "PUT" "/premium/gdz/books/7" None true
       {| kw_params := Some [("user_id", PyInt 42)];
          kw_json := Some [("search_by", PyStr "page")] |} example_world) =
  "https://learnify.mag329.tech/api/v1/premium/gdz/books/7?user_id=42".
Proof.
  destruct (update_book_fields server_no_content ExampleJson.loads
              ExampleJson.str_of BookSchema.Book 42 7 None None None
              (Some "page") example_world)
    as (_ & _ & _ & _ & _ & _ & _ & _ & Hsent).
  destruct Hsent as (_ & Hurl & _); [discriminate|by eexists|discriminate|].
  exact Hurl.
Defined.

(** X15.  The body that [create_book] sends always has [user_id] and
    [url]; each of [subject_id], [subject_name] and [search_by] is in it
    exactly when it is given; there is no other key.  With an active
    session and a token, one [POST] carries this body to the book
    collection. *)
Theorem create_book_fields (server : HttpCall -> ClientResponse)
    (json_loads : string -> option json) (str_of_json : json -> string)
    (Book : Type_ gdz.Book)
    (user_id : Z) (url : string) (subject_id : option Z)
    (subject_name search_by : option string) (w : World) :
  let body := create_book_body user_id url subject_id subject_name search_by in
  let call :=
    request_call "POST" "/premium/gdz/books" None true
      {| kw_params := None; kw_json := Some body |} w in
  Py.get "user_id" body = Some (PyInt user_id)
  ∧ Py.get "url" body = Some (PyStr url)
  ∧ Py.get "subject_id" body = PyInt <$> subject_id
  ∧ Py.get "subject_name" body = PyStr <$> subject_name
  ∧ Py.get "search_by" body = PyStr <$> search_by
  ∧ (∀ k, k ∈ Py.keys body →
       k ∈ ["user_id"; "url"; "subject_id"; "subject_name"; "search_by"])
  ∧ NoDup (Py.keys body)
  ∧ (is_Some (session (client w)) → token (client w) ≠ EmptyString →
     sent (snd (create_book server json_loads str_of_json user_id url
                  subject_id subject_name search_by w)) = (sent w ++ [call])%list
     ∧ call_url call = base_url (client w) +:+ "/premium/gdz/books"
     ∧ call_json call = Some body).
Proof.
  intros body call. split_and!.
  - subst body. by destruct subject_id, subject_name, search_by.
  - subst body. by destruct subject_id, subject_name, search_by.
  - subst body. by destruct subject_id, subject_name, search_by.
  - subst body. by destruct subject_id, subject_name, search_by.
  - subst body. by destruct subject_id, subject_name, search_by.
  - subst body. intros k.
    destruct subject_id, subject_name, search_by; cbn;
      rewrite ?elem_of_cons, ?elem_of_nil; intros H;
      repeat (destruct H as [->|H]; [by auto 10|]); done.
  - subst body.
    destruct subject_id, subject_name, search_by; cbn;
      repeat constructor; rewrite ?elem_of_cons, ?elem_of_nil; intros H;
      repeat (destruct H as [H|H]; [discriminate H|]); done.
  - intros Hs Htok. split_and!; [|reflexivity|reflexivity].
    unfold create_book. fold body.
    by rewrite (request_dispatches _ _ _ _ _ _ _ _ _ _ _ _ Hs Htok).
Qed.

Lemma create_book_fields_witness :
  sent (snd (create_book server_no_content ExampleJson.loads ExampleJson.str_of
               (Book := BookSchema.Book) 42 "https://gdz.example/algebra"
               None (Some "algebra") None example_world)) =
  [request_call "POST" "/premium/gdz/books" None true
     {| kw_params := None;
        kw_json := Some [("user_id", PyInt 42);
                         ("url", PyStr "https://gdz.example/algebra");
                         ("subject_name", PyStr "algebra")] |}
     example_world].
Proof.
  destruct (create_book_fields server_no_content ExampleJson.loads
              ExampleJson.str_of BookSchema.Book 42
              "https://gdz.example/algebra" None (Some "algebra") None
              example_world) as (_ & _ & _ & _ & _ & _ & _ & Hsent).
  apply Hsent; [by eexists|discriminate].
Defined.

(** X16.  With an active session and a token, [get_book] dispatches one
    [GET] without a body, whose URL is the search path followed by the
    query string: [user_id] first, then [book_id], [subject_id] and
    [subject_name], each only when given, in this order. *)
Theorem get_book_url (server : HttpCall -> ClientResponse)
    (json_loads : string -> option json) (str_of_json : json -> string)
    (Book : Type_ gdz.Book)
    (user_id : string) (book_id subject_id : option Z)
    (subject_name : option string) (w : World) :
  is_Some (session (client w)) → token (client w) ≠ EmptyString →
  ∃ call,
    sent (snd (get_book server json_loads str_of_json user_id book_id
                 subject_id subject_name w)) = (sent w ++ [call])%list
    ∧ call_method call = "GET"
    ∧ call_json call = None
    ∧ call_url call =
        base_url (client w) +:+ "/premium/gdz/books/search" +:+ "?" +:+
        String.concat "&"
          (["user_id=" +:+ user_id]
           ++ query_segment "book_id" pretty book_id
           ++ query_segment "subject_id" pretty subject_id
           ++ query_segment "subject_name" id subject_name).
Proof.
  intros Hs Htok. unfold get_book.
  rewrite (request_dispatches _ _ _ _ _ _ _ _ _ _ _ _ Hs Htok). simpl.
  eexists. split; [reflexivity|]. split; [reflexivity|].
  split; [reflexivity|]. simpl.
  rewrite <- append_assoc.
  by destruct book_id, subject_id, subject_name.
Qed.

Lemma get_book_url_witness :
  ∃ call,
    sent (snd (get_book server_no_content ExampleJson.loads ExampleJson.str_of
                 (Book := BookSchema.Book) "42" None (Some 3) (Some "algebra")
                 example_world)) = [call]
    ∧ call_url call =
      "https://learnify.mag329.tech/api/v1/premium/gdz/books/search?user_id=42&subject_id=3&subject_name=algebra".
Proof.
  destruct (get_book_url server_no_content ExampleJson.loads ExampleJson.str_of
              BookSchema.Book "42" None (Some 3) (Some "algebra") example_world)
    as (call & Hsent & _ & _ & Hurl); [by eexists|discriminate|].
  exists call. split; [exact Hsent|exact Hurl].
Defined.

(** X17.  With an active session and a token, [get_gdz_answers] dispatches
    one [GET] without a body, whose URL is the answers path followed by
    the query string: [task_text] first, then [user_id], [book_id],
    [subject_id], [subject_name], [book_url] and [search_by], each only
    when given, in this order. *)
Theorem get_gdz_answers_url (server : HttpCall -> ClientResponse)
    (json_loads : string -> option json) (str_of_json : json -> string)
    (GdzAnswer : Type_ gdz_answer.GdzAnswer)
    (task_text : string) (user_id book_id subject_id : option Z)
    (subject_name book_url search_by : option string) (w : World) :
  is_Some (session (client w)) → token (client w) ≠ EmptyString →
  ∃ call,
    sent (snd (get_gdz_answers server json_loads str_of_json task_text user_id
                 book_id subject_id subject_name book_url search_by w)) =
      (sent w ++ [call])%list
    ∧ call_method call = "GET"
    ∧ call_json call = None
    ∧ call_url call =
        base_url (client w) +:+ "/premium/gdz/books/gdz" +:+ "?" +:+
        String.concat "&"
          (["task_text=" +:+ task_text]
           ++ query_segment "user_id" pretty user_id
           ++ query_segment "book_id" pretty book_id
           ++ query_segment "subject_id" pretty subject_id
           ++ query_segment "subject_name" id subject_name
           ++ query_segment "book_url" id book_url
           ++ query_segment "search_by" id search_by).
Proof.
  intros Hs Htok. unfold get_gdz_answers.
  rewrite (request_dispatches _ _ _ _ _ _ _ _ _ _ _ _ Hs Htok). simpl.
  eexists. split; [reflexivity|]. split; [reflexivity|].
  split; [reflexivity|]. simpl.
  rewrite <- append_assoc.
  by destruct user_id, book_id, subject_id, subject_name, book_url, search_by.
Qed.

Lemma get_gdz_answers_url_witness :
  ∃ call,
    sent (snd (get_gdz_answers server_no_content ExampleJson.loads
                 ExampleJson.str_of (GdzAnswer := {| model_validate := λ _, None |})
                 "437" (Some 42) None None None None (Some "number")
                 example_world)) = [call]
    ∧ call_url call =
      "https://learnify.mag329.tech/api/v1/premium/gdz/books/gdz?task_text=437&user_id=42&search_by=number".
Proof.
  destruct (get_gdz_answers_url server_no_content ExampleJson.loads
              ExampleJson.str_of {| model_validate := λ _, None |}
              "437" (Some 42) None None None None (Some "number") example_world)
    as (call & Hsent & _ & _ & Hurl); [by eexists|discriminate|].
  exists call. split; [exact Hsent|exact Hurl].
Defined.

Lemma handle_response_plain (json_loads : string -> option json)
    (str_of_json : json -> string) {A} (return_raw_text : bool)
    (response : ClientResponse) :
  status response < 400 →
  handle_response json_loads str_of_json (None : option (Type_ A))
    false false return_raw_text false response =
  Returns (if str_truthy (text response) then RText (text response) else RNone).
Proof.
  intros Hstatus. unfold handle_response.
  rewrite (check_response_success _ _ Hstatus). simpl.
  destruct (str_truthy (text response)); simpl; [|done].
  by destruct return_raw_text.
Qed.

(** X18.  [delete_user] and [delete_book] return [None] for every
    response with a status below 400, whatever its body: the text that
    [request] makes of a non-empty body is dropped.  The one call they
    dispatch is a [DELETE]. *)
Theorem delete_returns_None (server : HttpCall -> ClientResponse)
    (json_loads : string -> option json) (str_of_json : json -> string)
    (user_id book_id : Z) (w : World) :
  is_Some (session (client w)) → token (client w) ≠ EmptyString →
  let call_user :=
    request_call "DELETE" ("/premium/users/" +:+ pretty user_id) None true
      no_kwargs w in
  let call_book :=
    request_call "DELETE" ("/premium/gdz/books/" +:+ pretty book_id) None true
      {| kw_params := Some [("user_id", PyInt user_id)]; kw_json := None |} w in
  (status (server call_user) < 400 →
     delete_user server json_loads str_of_json user_id w =
       (Returns RNone,
        {| client := client w; sent := sent w ++ [call_user]; heap := heap w |}))
  ∧ (status (server call_book) < 400 →
     delete_book server json_loads str_of_json user_id book_id w =
       (Returns RNone,
        {| client := client w; sent := sent w ++ [call_book]; heap := heap w |})).
Proof.
  intros Hs Htok call_user call_book. split; intros Hstatus.
  - unfold delete_user, bind at 1.
    rewrite (request_dispatches _ _ _ _ _ _ _ _ _ _ _ _ Hs Htok).
    fold call_user. by rewrite (handle_response_plain _ _ _ _ Hstatus).
  - unfold delete_book, bind at 1.
    rewrite (request_dispatches _ _ _ _ _ _ _ _ _ _ _ _ Hs Htok).
    fold call_book. by rewrite (handle_response_plain _ _ _ _ Hstatus).
Qed.

Lemma delete_returns_None_witness :
  fst (delete_user (server_text 200 "deleted") ExampleJson.loads
         ExampleJson.str_of 7 example_world) = Returns RNone
  ∧ fst (delete_book (server_text 200 "deleted") ExampleJson.loads
           ExampleJson.str_of 42 7 example_world) = Returns RNone.
Proof.
  destruct (delete_returns_None (server_text 200 "deleted") ExampleJson.loads
              ExampleJson.str_of 42 7 example_world) as [_ Hbook];
    [by eexists|discriminate|].
  destruct (delete_returns_None (server_text 200 "deleted") ExampleJson.loads
              ExampleJson.str_of 7 7 example_world) as [Huser _];
    [by eexists|discriminate|].
  split.
  - by rewrite Huser.
  - by rewrite Hbook.
Defined.

(** X19.  [check_subscription] returns the text of the response as it is
    (a string such as [true], never a decoded value) for every status
    below 400, and [None] when that text is empty. *)
Theorem check_subscription_text (server : HttpCall -> ClientResponse)
    (json_loads : string -> option json) (str_of_json : json -> string)
    (user_id : Z) (w : World) :
  is_Some (session (client w)) → token (client w) ≠ EmptyString →
  let call :=
    request_call "GET" ("/premium/users/" +:+ pretty user_id +:+ "/subscription")
      None true no_kwargs w in
  status (server call) < 400 →
  fst (check_subscription server json_loads str_of_json user_id w) =
    Returns (if str_truthy (text (server call))
             then RText (text (server call)) else RNone)
  ∧ call_url call =
      base_url (client w) +:+ "/premium/users/" +:+ pretty user_id
      +:+ "/subscription".
Proof.
  intros Hs Htok call Hstatus. split; [|reflexivity].
  unfold check_subscription.
  rewrite (request_dispatches _ _ _ _ _ _ _ _ _ _ _ _ Hs Htok).
  fold call. simpl. by rewrite (handle_response_plain _ _ _ _ Hstatus).
Qed.

Lemma check_subscription_text_witness :
  fst (check_subscription (server_text 200 "true") ExampleJson.loads
         ExampleJson.str_of 7 example_world) = Returns (RText "true").
Proof.
  refine (proj1 (check_subscription_text (server_text 200 "true")
                   ExampleJson.loads ExampleJson.str_of 7 example_world _ _ _)).
  - by eexists.
  - discriminate.
  - reflexivity.
Defined.

(** X20.  Users are addressed without collision: with an active session
    and a token, two calls of [get_user] dispatch to the same URL exactly
    when they are given the same identifier. *)
Theorem get_user_url_injective (server : HttpCall -> ClientResponse)
    (json_loads : string -> option json) (str_of_json : json -> string)
    (DT : Type) (User : Type_ (user.User DT)) (u1 u2 : Z) (w : World) :
  is_Some (session (client w)) → token (client w) ≠ EmptyString →
  ∃ call1 call2,
    sent (snd (get_user server json_loads str_of_json u1 w)) =
      (sent w ++ [call1])%list
    ∧ sent (snd (get_user server json_loads str_of_json u2 w)) =
      (sent w ++ [call2])%list
    ∧ (call_url call1 = call_url call2 ↔ u1 = u2).
Proof.
  intros Hs Htok. unfold get_user.
  rewrite !(request_dispatches _ _ _ _ _ _ _ _ _ _ _ _ Hs Htok). simpl.
  eexists _, _. split; [reflexivity|]. split; [reflexivity|]. simpl.
  unfold init_params. simpl. split; [|by intros ->].
  intros H. apply String.app_inj in H.
  apply (String.app_inj "/premium/users/") in H.
  by apply pretty_Z_inj in H.
Qed.

Lemma get_user_url_injective_witness :
  ∃ call1 call2,
    sent (snd (get_user server_no_content ExampleJson.loads ExampleJson.str_of
                 (User := no_User) 7 example_world)) = [call1]
    ∧ sent (snd (get_user server_no_content ExampleJson.loads ExampleJson.str_of
                   (User := no_User) (-7) example_world)) = [call2]
    ∧ (call_url call1 = call_url call2 ↔ 7 = -7).
Proof.
  apply (get_user_url_injective server_no_content ExampleJson.loads
           ExampleJson.str_of unit no_User 7 (-7) example_world).
  - by eexists.
  - discriminate.
Defined.
